(** * Bakery management backend ([backend/server.py])

    A shallow embedding of the order workflow of the bakery backend: the
    document models, the three store collections, the endpoints that the
    order workflow touches ([actualizar_cliente], [actualizar_producto],
    [crear_pedido], [obtener_pedido], [actualizar_estado_pedido],
    [obtener_estadisticas]) and the properties of those endpoints.

    Conventions of the embedding.
    - A Python [float] is an IEEE 754 binary64 number: Rocq's primitive
      [float], with its primitive addition and multiplication.  A Python
      [int] is a [Z].  Converting an [int] to a [float] rounds to nearest
      even and raises [OverflowError] when the integer is too large.
    - A collection of the store is the list of its documents in natural
      (insertion) order; a document is the record of the fields of the
      model it was written from.
    - An endpoint is a function from the store to the store after the call
      and either the returned value or the raised exception.
    - [uuid.uuid4()], [datetime.utcnow()] and the library's
      [datetime.strptime] are inputs of the endpoints that use them.
    - A [datetime] is a time at the precision the store keeps
      (milliseconds): the clock value [utcnow] given to an endpoint is the
      clock read at that precision, so that a document is read back as it
      was written.  The digits below the millisecond, which only the reply
      of a creating request carries, are not part of the model.
    - The driver refuses a document with an integer outside 8 bytes
      ([OverflowError], nothing written); see [Bson]. *)

From Stdlib Require Import ZArith List String Ascii Bool Lia.
From Stdlib Require Import Floats.PrimFloat Floats.SpecFloat Floats.FloatOps.
From Stdlib Require Import Sorting.Permutation Sorting.Sorted.
From Stdlib Require Import DecimalString DecimalNat FinFun.
Import ListNotations.

Local Open Scope string_scope.
Local Open Scope Z_scope.

(** ** Python values and exceptions *)

Module Py.

(** [HTTPException(status_code, detail)] of FastAPI, the built-in exception
    that the arithmetic of [crear_pedido] and the encoding of an order for
    the store can raise, and the one that building a model from [None]
    would raise. *)
Inductive exn : Type :=
| HTTPException (status_code : Z) (detail : string)
| OverflowError
| TypeError.

Inductive outcome (A : Type) : Type :=
| Return (a : A)
| Raise (e : exn).
Arguments Return {A} a.
Arguments Raise {A} e.

(** A number is an [int] or a [float]; [total = 0] starts as an [int]. *)
Inductive number : Type :=
| PyInt (z : Z)
| PyFloat (f : float).

(** [float(z)] for an [int] [z]: correctly rounded (nearest, ties to even);
    [OverflowError] when the rounded value is not finite. *)
Definition float_of_int (z : Z) : outcome float :=
  match binary_normalize 53 1024 z 0 false with
  | S754_infinity _ => Raise OverflowError
  | sf => Return (SF2Prim sf)
  end.

(** [f * z] with [f] a [float] and [z] an [int]. *)
Definition float_mul_int (f : float) (z : Z) : outcome float :=
  match float_of_int z with
  | Return g => Return (PrimFloat.mul f g)
  | Raise e => Raise e
  end.

(** [n + f] with [f] a [float]: an [int] on the left is converted first. *)
Definition number_add_float (n : number) (f : float) : outcome number :=
  match n with
  | PyInt z =>
      match float_of_int z with
      | Return g => Return (PyFloat (PrimFloat.add g f))
      | Raise e => Raise e
      end
  | PyFloat g => Return (PyFloat (PrimFloat.add g f))
  end.

(** Validation of a [float] field of a pydantic model: [float(v)]. *)
Definition pydantic_float (n : number) : outcome float :=
  match n with
  | PyInt z => float_of_int z
  | PyFloat f => Return f
  end.

(** The built-in [sum] over floats: start at the [int] [0], add the items
    from left to right. *)
Fixpoint sum_from (acc : number) (xs : list float) : outcome number :=
  match xs with
  | [] => Return acc
  | x :: rest =>
      match number_add_float acc x with
      | Return acc' => sum_from acc' rest
      | Raise e => Raise e
      end
  end.

Definition sum (xs : list float) : outcome number := sum_from (PyInt 0) xs.

(** [x in xs] for a list of strings. *)
Definition str_in (x : string) (xs : list string) : bool :=
  existsb (String.eqb x) xs.

(** [datetime.datetime]. *)
Record datetime : Type := {
  year : Z; month : Z; day : Z;
  hour : Z; minute : Z; second : Z; microsecond : Z
}.

End Py.
Import Py.

(** ** Models *)

Module Cliente.
Record t : Type := {
  id : string;
  nombre : string;
  telefono : string;
  email : option string;
  direccion : option string;
  fecha_registro : datetime
}.
End Cliente.

Module ClienteCreate.
Record t : Type := {
  nombre : string;
  telefono : string;
  email : option string;
  direccion : option string
}.
End ClienteCreate.

Module Producto.
Record t : Type := {
  id : string;
  nombre : string;
  precio : float;
  categoria : string;
  descripcion : option string;
  disponible : bool
}.
End Producto.

Module ProductoCreate.
Record t : Type := {
  nombre : string;
  precio : float;
  categoria : string;
  descripcion : option string;
  disponible : bool
}.
End ProductoCreate.

Module DetalleProducto.
Record t : Type := {
  producto_id : string;
  nombre_producto : string;
  cantidad : Z;
  precio_unitario : float;
  subtotal : float
}.
End DetalleProducto.

Module Pedido.
Record t : Type := {
  id : string;
  cliente_id : string;
  nombre_cliente : string;
  fecha_pedido : datetime;
  fecha_entrega_estimada : datetime;
  estado : string;
  productos : list DetalleProducto.t;
  total : float
}.

(** [{"$set": {"estado": e}}] on an order document. *)
Definition set_estado (e : string) (p : t) : t :=
  {| id := id p;
     cliente_id := cliente_id p;
     nombre_cliente := nombre_cliente p;
     fecha_pedido := fecha_pedido p;
     fecha_entrega_estimada := fecha_entrega_estimada p;
     estado := e;
     productos := productos p;
     total := total p |}.
End Pedido.

(** One entry of [PedidoCreate.productos]: [{producto_id: str, cantidad: int}]. *)
Module Item.
Record t : Type := {
  producto_id : string;
  cantidad : Z
}.
End Item.

Module PedidoCreate.
Record t : Type := {
  cliente_id : string;
  fecha_entrega_estimada : string;
  productos : list Item.t
}.
End PedidoCreate.

(** [{"$set": cliente.dict()}] on a customer document: the four fields of
    [ClienteCreate] are written, [id] and [fecha_registro] are not named. *)
Definition set_cliente (c : ClienteCreate.t) (d : Cliente.t) : Cliente.t :=
  {| Cliente.id := Cliente.id d;
     Cliente.nombre := ClienteCreate.nombre c;
     Cliente.telefono := ClienteCreate.telefono c;
     Cliente.email := ClienteCreate.email c;
     Cliente.direccion := ClienteCreate.direccion c;
     Cliente.fecha_registro := Cliente.fecha_registro d |}.

(** [{"$set": producto.dict()}] on a product document. *)
Definition set_producto (c : ProductoCreate.t) (d : Producto.t) : Producto.t :=
  {| Producto.id := Producto.id d;
     Producto.nombre := ProductoCreate.nombre c;
     Producto.precio := ProductoCreate.precio c;
     Producto.categoria := ProductoCreate.categoria c;
     Producto.descripcion := ProductoCreate.descripcion c;
     Producto.disponible := ProductoCreate.disponible c |}.

(** ** The store *)

Inductive coleccion : Type := Clientes | Productos | Pedidos.
Inductive write_op : Type := Insert_one | Update_one | Delete_one.

(** The three collections and the log of the write operations issued so
    far, oldest first. *)
Record DB : Type := {
  clientes : list Cliente.t;
  productos : list Producto.t;
  pedidos : list Pedido.t;
  writes : list (coleccion * write_op)
}.

Module Collection.
Section Ops.
Context {A : Type}.
Variable key : A -> string.

(** [find_one({"id": k})]: the first document whose [id] is [k]. *)
Definition find_one (k : string) (docs : list A) : option A :=
  List.find (fun d => String.eqb (key d) k) docs.

(** [update_one({"id": k}, {"$set": ...})]: the first match is rewritten. *)
Fixpoint update_one (k : string) (set : A -> A) (docs : list A) : list A :=
  match docs with
  | [] => []
  | d :: rest =>
      if String.eqb (key d) k then set d :: rest
      else d :: update_one k set rest
  end.

(** [insert_one(d)]. *)
Definition insert_one (d : A) (docs : list A) : list A := docs ++ [d].

End Ops.

(** [count_documents(filter)]. *)
Definition count_documents {A} (filter : A -> bool) (docs : list A) : Z :=
  Z.of_nat (List.length (List.filter filter docs)).

(** [find(filter).to_list(length)]: at most [length] documents. *)
Definition find_to_list {A} (filter : A -> bool) (length : nat) (docs : list A)
  : list A :=
  List.firstn length (List.filter filter docs).
End Collection.

(** The encoding of a document for the store (BSON).  An integer is held
    in at most 8 bytes: [-2^63 <= z < 2^63].  Strings, floats and booleans
    are held as they are; a [datetime] is held at the precision of the
    store, which is the precision of [datetime] here (see the conventions
    above). *)
Module Bson.

Definition int64 (z : Z) : bool :=
  (- 2 ^ 63 <=? z) && (z <? 2 ^ 63).

Definition pedido (p : Pedido.t) : bool :=
  List.forallb (fun d => int64 (DetalleProducto.cantidad d))
               (Pedido.productos p).

End Bson.

(** ** Endpoints as store transformers *)

Definition M (A : Type) : Type := DB -> DB * outcome A.

Definition ret {A} (a : A) : M A := fun db => (db, Return a).
Definition raise {A} (e : exn) : M A := fun db => (db, Raise e).
Definition lift {A} (o : outcome A) : M A := fun db => (db, o).
Definition bind {A B} (m : M A) (k : A -> M B) : M B :=
  fun db =>
    match m db with
    | (db', Return a) => k a db'
    | (db', Raise e) => (db', Raise e)
    end.

Declare Scope endpoint_scope.
Delimit Scope endpoint_scope with endpoint.
Notation "x <- m ;; k" := (bind m (fun x => k))
  (at level 100, m at next level, right associativity) : endpoint_scope.
Notation "m ;;; k" := (bind m (fun _ => k))
  (at level 100, right associativity) : endpoint_scope.
Local Open Scope endpoint_scope.

Definition log (c : coleccion) (o : write_op) (db : DB) : list (coleccion * write_op) :=
  writes db ++ [(c, o)].

Definition clientes_find_one (k : string) : M (option Cliente.t) :=
  fun db => (db, Return (Collection.find_one Cliente.id k (clientes db))).

Definition productos_find_one (k : string) : M (option Producto.t) :=
  fun db => (db, Return (Collection.find_one Producto.id k (productos db))).

Definition pedidos_find_one (k : string) : M (option Pedido.t) :=
  fun db => (db, Return (Collection.find_one Pedido.id k (pedidos db))).

Definition clientes_update_one (k : string) (c : ClienteCreate.t) : M unit :=
  fun db =>
    ({| clientes := Collection.update_one Cliente.id k (set_cliente c) (clientes db);
        productos := productos db;
        pedidos := pedidos db;
        writes := log Clientes Update_one db |}, Return tt).

Definition productos_update_one (k : string) (c : ProductoCreate.t) : M unit :=
  fun db =>
    ({| clientes := clientes db;
        productos := Collection.update_one Producto.id k (set_producto c) (productos db);
        pedidos := pedidos db;
        writes := log Productos Update_one db |}, Return tt).

Definition pedidos_update_one_estado (k : string) (e : string) : M unit :=
  fun db =>
    ({| clientes := clientes db;
        productos := productos db;
        pedidos := Collection.update_one Pedido.id k (Pedido.set_estado e) (pedidos db);
        writes := log Pedidos Update_one db |}, Return tt).

(** [db.pedidos.insert_one(pedido_obj.dict())].  The driver encodes the
    document before it sends anything: an [int] outside the 8-byte range
    makes the encoding raise [OverflowError], and then nothing is written.
    The integers of an order are the quantities of its lines. *)
Definition pedidos_insert_one (p : Pedido.t) : M unit :=
  fun db =>
    if Bson.pedido p
    then ({| clientes := clientes db;
             productos := productos db;
             pedidos := Collection.insert_one p (pedidos db);
             writes := log Pedidos Insert_one db |}, Return tt)
    else (db, Raise OverflowError).

(** ** Endpoints *)

Definition cliente_no_encontrado : exn :=
  HTTPException 404 "Cliente no encontrado".
Definition producto_no_encontrado : exn :=
  HTTPException 404 "Producto no encontrado".
Definition pedido_no_encontrado : exn :=
  HTTPException 404 "Pedido no encontrado".
Definition fecha_invalida : exn :=
  HTTPException 400 "Formato de fecha inválido. Use YYYY-MM-DD".
Definition estado_no_valido : exn :=
  HTTPException 400 "Estado no válido".
(** [f"Producto {item['producto_id']} no encontrado"] *)
Definition producto_item_no_encontrado (producto_id : string) : exn :=
  HTTPException 404 ("Producto " ++ producto_id ++ " no encontrado").

Definition estados_validos : list string :=
  ["pendiente"; "en_proceso"; "completado"; "cancelado"].

(** [PUT /clientes/{cliente_id}] *)
Definition actualizar_cliente (cliente_id : string) (cliente : ClienteCreate.t)
  : M Cliente.t :=
  cliente_existente <- clientes_find_one cliente_id ;;
  match cliente_existente with
  | None => raise cliente_no_encontrado
  | Some _ =>
      clientes_update_one cliente_id cliente ;;;
      cliente_actualizado <- clientes_find_one cliente_id ;;
      match cliente_actualizado with
      | Some c => ret c
      | None => raise TypeError
      end
  end.

(** [PUT /productos/{producto_id}] *)
Definition actualizar_producto (producto_id : string) (producto : ProductoCreate.t)
  : M Producto.t :=
  producto_existente <- productos_find_one producto_id ;;
  match producto_existente with
  | None => raise producto_no_encontrado
  | Some _ =>
      productos_update_one producto_id producto ;;;
      producto_actualizado <- productos_find_one producto_id ;;
      match producto_actualizado with
      | Some p => ret p
      | None => raise TypeError
      end
  end.

(** The body of the [for item in pedido.productos] loop of [crear_pedido],
    iterated over the remaining items; [productos_detalle] and [total] are
    the two accumulators of the loop. *)
Fixpoint procesar_productos (items : list Item.t)
    (productos_detalle : list DetalleProducto.t) (total : number)
  : M (list DetalleProducto.t * number) :=
  match items with
  | [] => ret (productos_detalle, total)
  | item :: rest =>
      producto <- productos_find_one (Item.producto_id item) ;;
      match producto with
      | None => raise (producto_item_no_encontrado (Item.producto_id item))
      | Some producto =>
          subtotal <- lift (float_mul_int (Producto.precio producto)
                                          (Item.cantidad item)) ;;
          let detalle :=
            {| DetalleProducto.producto_id := Item.producto_id item;
               DetalleProducto.nombre_producto := Producto.nombre producto;
               DetalleProducto.cantidad := Item.cantidad item;
               DetalleProducto.precio_unitario := Producto.precio producto;
               DetalleProducto.subtotal := subtotal |} in
          total' <- lift (number_add_float total subtotal) ;;
          procesar_productos rest (productos_detalle ++ [detalle]) total'
      end
  end.

Section CrearPedido.

(** [datetime.strptime(s, "%Y-%m-%d")]; [None] stands for [ValueError]. *)
Variable strptime_Ymd : string -> option datetime.
(** The values [uuid.uuid4()] and [datetime.utcnow()] take in this call. *)
Variable uuid4 : string.
Variable utcnow : datetime.

(** [POST /pedidos] *)
Definition crear_pedido (pedido : PedidoCreate.t) : M Pedido.t :=
  cliente <- clientes_find_one (PedidoCreate.cliente_id pedido) ;;
  match cliente with
  | None => raise cliente_no_encontrado
  | Some cliente =>
      match strptime_Ymd (PedidoCreate.fecha_entrega_estimada pedido) with
      | None => raise fecha_invalida
      | Some fecha_entrega =>
          r <- procesar_productos (PedidoCreate.productos pedido) [] (PyInt 0) ;;
          total <- lift (pydantic_float (snd r)) ;;
          let pedido_obj :=
            {| Pedido.id := uuid4;
               Pedido.cliente_id := PedidoCreate.cliente_id pedido;
               Pedido.nombre_cliente := Cliente.nombre cliente;
               Pedido.fecha_pedido := utcnow;
               Pedido.fecha_entrega_estimada := fecha_entrega;
               Pedido.estado := "pendiente";
               Pedido.productos := fst r;
               Pedido.total := total |} in
          pedidos_insert_one pedido_obj ;;;
          ret pedido_obj
      end
  end.

End CrearPedido.

(** [GET /pedidos/{pedido_id}] *)
Definition obtener_pedido (pedido_id : string) : M Pedido.t :=
  pedido <- pedidos_find_one pedido_id ;;
  match pedido with
  | None => raise pedido_no_encontrado
  | Some p => ret p
  end.

(** [PUT /pedidos/{pedido_id}/estado]; [estado] is the value of
    [estado["estado"]] in the request body. *)
Definition actualizar_estado_pedido (pedido_id : string) (estado : string)
  : M string :=
  pedido <- pedidos_find_one pedido_id ;;
  match pedido with
  | None => raise pedido_no_encontrado
  | Some _ =>
      if negb (str_in estado estados_validos) then raise estado_no_valido
      else
        pedidos_update_one_estado pedido_id estado ;;;
        ret "Estado actualizado exitosamente"
  end.

(** The dictionary returned by [GET /dashboard/estadisticas]. *)
Record Estadisticas : Type := {
  total_clientes : Z;
  total_productos : Z;
  total_pedidos : Z;
  pedidos_pendientes : Z;
  pedidos_en_proceso : Z;
  pedidos_completados : Z;
  ingresos_totales : number
}.

(** The filter [{"estado": e}]. *)
Definition con_estado (e : string) (p : Pedido.t) : bool :=
  String.eqb (Pedido.estado p) e.

(** The filter [{}]. *)
Definition todos {A} (_ : A) : bool := true.

(** [GET /dashboard/estadisticas] *)
Definition obtener_estadisticas : M Estadisticas :=
  fun db =>
    let total_clientes := Collection.count_documents todos (clientes db) in
    let total_productos := Collection.count_documents todos (productos db) in
    let total_pedidos := Collection.count_documents todos (pedidos db) in
    let pedidos_pendientes :=
      Collection.count_documents (con_estado "pendiente") (pedidos db) in
    let pedidos_en_proceso :=
      Collection.count_documents (con_estado "en_proceso") (pedidos db) in
    let pedidos_completados :=
      Collection.count_documents (con_estado "completado") (pedidos db) in
    let pedidos_completados_datos :=
      Collection.find_to_list (con_estado "completado") 1000 (pedidos db) in
    match Py.sum (List.map Pedido.total pedidos_completados_datos) with
    | Raise e => (db, Raise e)
    | Return ingresos_totales =>
        (db, Return {| total_clientes := total_clientes;
                       total_productos := total_productos;
                       total_pedidos := total_pedidos;
                       pedidos_pendientes := pedidos_pendientes;
                       pedidos_en_proceso := pedidos_en_proceso;
                       pedidos_completados := pedidos_completados;
                       ingresos_totales := ingresos_totales |})
    end.

(** ** The other endpoints *)

(** [delete_one({"id": k})]: the first match is removed. *)
Fixpoint delete_one {A : Type} (key : A -> string) (k : string) (docs : list A)
  : list A :=
  match docs with
  | [] => []
  | d :: rest =>
      if String.eqb (key d) k then rest else d :: delete_one key k rest
  end.

(** [resultado.deleted_count] of that [delete_one]. *)
Definition deleted_count {A : Type} (key : A -> string) (k : string)
    (docs : list A) : Z :=
  match Collection.find_one key k docs with
  | Some _ => 1
  | None => 0
  end.

Definition clientes_insert_one (c : Cliente.t) : M unit :=
  fun db =>
    ({| clientes := Collection.insert_one c (clientes db);
        productos := productos db;
        pedidos := pedidos db;
        writes := log Clientes Insert_one db |}, Return tt).

Definition productos_insert_one (p : Producto.t) : M unit :=
  fun db =>
    ({| clientes := clientes db;
        productos := Collection.insert_one p (productos db);
        pedidos := pedidos db;
        writes := log Productos Insert_one db |}, Return tt).

Definition clientes_delete_one (k : string) : M Z :=
  fun db =>
    ({| clientes := delete_one Cliente.id k (clientes db);
        productos := productos db;
        pedidos := pedidos db;
        writes := log Clientes Delete_one db |},
     Return (deleted_count Cliente.id k (clientes db))).

Definition productos_delete_one (k : string) : M Z :=
  fun db =>
    ({| clientes := clientes db;
        productos := delete_one Producto.id k (productos db);
        pedidos := pedidos db;
        writes := log Productos Delete_one db |},
     Return (deleted_count Producto.id k (productos db))).

Definition pedidos_delete_one (k : string) : M Z :=
  fun db =>
    ({| clientes := clientes db;
        productos := productos db;
        pedidos := delete_one Pedido.id k (pedidos db);
        writes := log Pedidos Delete_one db |},
     Return (deleted_count Pedido.id k (pedidos db))).

(** [POST /clientes]; [uuid4] and [utcnow] are the values the two default
    factories of [Cliente] take in this call. *)
Definition crear_cliente (uuid4 : string) (utcnow : datetime)
    (cliente : ClienteCreate.t) : M Cliente.t :=
  let cliente_obj :=
    {| Cliente.id := uuid4;
       Cliente.nombre := ClienteCreate.nombre cliente;
       Cliente.telefono := ClienteCreate.telefono cliente;
       Cliente.email := ClienteCreate.email cliente;
       Cliente.direccion := ClienteCreate.direccion cliente;
       Cliente.fecha_registro := utcnow |} in
  clientes_insert_one cliente_obj ;;;
  ret cliente_obj.

(** [GET /clientes] *)
Definition obtener_clientes : M (list Cliente.t) :=
  fun db => (db, Return (Collection.find_to_list todos 1000 (clientes db))).

(** [GET /clientes/{cliente_id}] *)
Definition obtener_cliente (cliente_id : string) : M Cliente.t :=
  cliente <- clientes_find_one cliente_id ;;
  match cliente with
  | None => raise cliente_no_encontrado
  | Some c => ret c
  end.

(** [DELETE /clientes/{cliente_id}] *)
Definition eliminar_cliente (cliente_id : string) : M string :=
  deleted <- clientes_delete_one cliente_id ;;
  if deleted =? 0 then raise cliente_no_encontrado
  else ret "Cliente eliminado exitosamente".

(** [POST /productos] *)
Definition crear_producto (uuid4 : string) (producto : ProductoCreate.t)
  : M Producto.t :=
  let producto_obj :=
    {| Producto.id := uuid4;
       Producto.nombre := ProductoCreate.nombre producto;
       Producto.precio := ProductoCreate.precio producto;
       Producto.categoria := ProductoCreate.categoria producto;
       Producto.descripcion := ProductoCreate.descripcion producto;
       Producto.disponible := ProductoCreate.disponible producto |} in
  productos_insert_one producto_obj ;;;
  ret producto_obj.

(** [GET /productos] *)
Definition obtener_productos : M (list Producto.t) :=
  fun db => (db, Return (Collection.find_to_list todos 1000 (productos db))).

(** [GET /productos/{producto_id}] *)
Definition obtener_producto (producto_id : string) : M Producto.t :=
  producto <- productos_find_one producto_id ;;
  match producto with
  | None => raise producto_no_encontrado
  | Some p => ret p
  end.

(** [DELETE /productos/{producto_id}] *)
Definition eliminar_producto (producto_id : string) : M string :=
  deleted <- productos_delete_one producto_id ;;
  if deleted =? 0 then raise producto_no_encontrado
  else ret "Producto eliminado exitosamente".

(** [GET /pedidos]; [sort_fecha_pedido] is the store's
    [sort("fecha_pedido", -1)] on the documents of a cursor. *)
Definition obtener_pedidos (sort_fecha_pedido : list Pedido.t -> list Pedido.t)
  : M (list Pedido.t) :=
  fun db =>
    (db, Return (List.firstn 1000
                   (sort_fecha_pedido (List.filter todos (pedidos db))))).

(** [DELETE /pedidos/{pedido_id}] *)
Definition eliminar_pedido (pedido_id : string) : M string :=
  deleted <- pedidos_delete_one pedido_id ;;
  if deleted =? 0 then raise pedido_no_encontrado
  else ret "Pedido eliminado exitosamente".

(** *** The API as one transition function *)

(** A request to the API, with the values the environment supplies to it. *)
Inductive llamada : Type :=
| Crear_cliente (uuid4 : string) (utcnow : datetime) (cliente : ClienteCreate.t)
| Obtener_clientes
| Obtener_cliente (cliente_id : string)
| Actualizar_cliente (cliente_id : string) (cliente : ClienteCreate.t)
| Eliminar_cliente (cliente_id : string)
| Crear_producto (uuid4 : string) (producto : ProductoCreate.t)
| Obtener_productos
| Obtener_producto (producto_id : string)
| Actualizar_producto (producto_id : string) (producto : ProductoCreate.t)
| Eliminar_producto (producto_id : string)
| Crear_pedido (uuid4 : string) (utcnow : datetime) (pedido : PedidoCreate.t)
| Obtener_pedidos
| Obtener_pedido (pedido_id : string)
| Actualizar_estado_pedido (pedido_id : string) (estado : string)
| Eliminar_pedido (pedido_id : string)
| Obtener_estadisticas.

(** What a request returns. *)
Inductive respuesta : Type :=
| Un_cliente (c : Cliente.t)
| Varios_clientes (cs : list Cliente.t)
| Un_producto (p : Producto.t)
| Varios_productos (ps : list Producto.t)
| Un_pedido (p : Pedido.t)
| Varios_pedidos (ps : list Pedido.t)
| Un_mensaje (mensaje : string)
| Unas_estadisticas (s : Estadisticas).

Definition responder {A : Type} (f : A -> respuesta) (m : M A) : M respuesta :=
  fun db =>
    match m db with
    | (db', Return a) => (db', Return (f a))
    | (db', Raise e) => (db', Raise e)
    end.

Section Api.
Variable strptime_Ymd : string -> option datetime.
Variable sort_fecha_pedido : list Pedido.t -> list Pedido.t.

Definition ejecutar (c : llamada) : M respuesta :=
  match c with
  | Crear_cliente uuid4 utcnow cliente =>
      responder Un_cliente (crear_cliente uuid4 utcnow cliente)
  | Obtener_clientes => responder Varios_clientes obtener_clientes
  | Obtener_cliente cliente_id =>
      responder Un_cliente (obtener_cliente cliente_id)
  | Actualizar_cliente cliente_id cliente =>
      responder Un_cliente (actualizar_cliente cliente_id cliente)
  | Eliminar_cliente cliente_id =>
      responder Un_mensaje (eliminar_cliente cliente_id)
  | Crear_producto uuid4 producto =>
      responder Un_producto (crear_producto uuid4 producto)
  | Obtener_productos => responder Varios_productos obtener_productos
  | Obtener_producto producto_id =>
      responder Un_producto (obtener_producto producto_id)
  | Actualizar_producto producto_id producto =>
      responder Un_producto (actualizar_producto producto_id producto)
  | Eliminar_producto producto_id =>
      responder Un_mensaje (eliminar_producto producto_id)
  | Crear_pedido uuid4 utcnow pedido =>
      responder Un_pedido (crear_pedido strptime_Ymd uuid4 utcnow pedido)
  | Obtener_pedidos =>
      responder Varios_pedidos (obtener_pedidos sort_fecha_pedido)
  | Obtener_pedido pedido_id =>
      responder Un_pedido (obtener_pedido pedido_id)
  | Actualizar_estado_pedido pedido_id estado =>
      responder Un_mensaje (actualizar_estado_pedido pedido_id estado)
  | Eliminar_pedido pedido_id =>
      responder Un_mensaje (eliminar_pedido pedido_id)
  | Obtener_estadisticas => responder Unas_estadisticas obtener_estadisticas
  end.

(** The store after a sequence of requests, oldest first. *)
Definition ejecutar_todas (cs : list llamada) (db : DB) : DB :=
  List.fold_left (fun db c => fst (ejecutar c db)) cs db.

End Api.

(** ** An instance of [strptime] and a sample store

    [Strptime.Ymd] follows the library's [datetime.strptime] at the format
    ["%Y-%m-%d"] on ASCII text: [%Y] is four digits, [%m] is
    [1[0-2]|0[1-9]|[1-9]], [%d] is [3[01]|[12]\d|0[1-9]|[1-9]| [1-9]], the
    whole text must be consumed and the date must exist. *)

Module Strptime.

Definition digit (c : ascii) : option Z :=
  let n := Z.of_N (N_of_ascii c) in
  if (48 <=? n) && (n <=? 57) then Some (n - 48) else None.

Definition digit_in (lo hi : Z) (c : ascii) : option Z :=
  match digit c with
  | Some d => if (lo <=? d) && (d <=? hi) then Some d else None
  | None => None
  end.

Definition directive_Y (s : list ascii) : option (Z * list ascii) :=
  match s with
  | a :: b :: c :: d :: rest =>
      match digit a, digit b, digit c, digit d with
      | Some a, Some b, Some c, Some d =>
          Some (1000 * a + 100 * b + 10 * c + d, rest)
      | _, _, _, _ => None
      end
  | _ => None
  end.

(** Two characters [a b] with [a] in [[la, ha]] and [b] in [[lb, hb]]. *)
Definition two_digits (la ha lb hb : Z) (s : list ascii)
  : option (Z * list ascii) :=
  match s with
  | a :: b :: rest =>
      match digit_in la ha a, digit_in lb hb b with
      | Some a, Some b => Some (10 * a + b, rest)
      | _, _ => None
      end
  | _ => None
  end.

Definition one_digit (lo hi : Z) (s : list ascii) : option (Z * list ascii) :=
  match s with
  | a :: rest =>
      match digit_in lo hi a with
      | Some a => Some (a, rest)
      | None => None
      end
  | [] => None
  end.

Definition space_digit (s : list ascii) : option (Z * list ascii) :=
  match s with
  | " "%char :: rest => one_digit 1 9 rest
  | _ => None
  end.

(** Ordered alternation of a regular expression. *)
Fixpoint first_of {A} (alts : list (list ascii -> option A)) (s : list ascii)
  : option A :=
  match alts with
  | [] => None
  | f :: rest =>
      match f s with
      | Some r => Some r
      | None => first_of rest s
      end
  end.

Definition directive_m : list ascii -> option (Z * list ascii) :=
  first_of [two_digits 1 1 0 2; two_digits 0 0 1 9; one_digit 1 9].

Definition directive_d : list ascii -> option (Z * list ascii) :=
  first_of [two_digits 3 3 0 1; two_digits 1 2 0 9; two_digits 0 0 1 9;
            one_digit 1 9; space_digit].

Definition hyphen (s : list ascii) : option (list ascii) :=
  match s with
  | "-"%char :: rest => Some rest
  | _ => None
  end.

Definition is_leap (y : Z) : bool :=
  (y mod 4 =? 0) && (negb (y mod 100 =? 0) || (y mod 400 =? 0)).

Definition days_in_month (y m : Z) : Z :=
  if m =? 2 then (if is_leap y then 29 else 28)
  else if (m =? 4) || (m =? 6) || (m =? 9) || (m =? 11) then 30
  else 31.

Definition Ymd (text : string) : option datetime :=
  match directive_Y (list_ascii_of_string text) with
  | None => None
  | Some (y, s1) =>
  match hyphen s1 with
  | None => None
  | Some s2 =>
  match directive_m s2 with
  | None => None
  | Some (m, s3) =>
  match hyphen s3 with
  | None => None
  | Some s4 =>
  match directive_d s4 with
  | Some (d, []) =>
      if (1 <=? y) && (d <=? days_in_month y m)
      then Some {| year := y; month := m; day := d;
                   hour := 0; minute := 0; second := 0; microsecond := 0 |}
      else None
  | _ => None
  end end end end end.

End Strptime.

Module Ejemplo.

Definition t0 : datetime :=
  {| year := 2024; month := 5; day := 1;
     hour := 9; minute := 30; second := 0; microsecond := 0 |}.

Definition ana : Cliente.t :=
  {| Cliente.id := "c-ana"; Cliente.nombre := "Ana";
     Cliente.telefono := "600100200"; Cliente.email := None;
     Cliente.direccion := Some "Calle Mayor 1"; Cliente.fecha_registro := t0 |}.

Definition pan : Producto.t :=
  {| Producto.id := "p-pan"; Producto.nombre := "Pan";
     Producto.precio := 3%float; Producto.categoria := "panaderia";
     Producto.descripcion := None; Producto.disponible := true |}.

Definition tarta : Producto.t :=
  {| Producto.id := "p-tarta"; Producto.nombre := "Tarta";
     Producto.precio := 5.5%float; Producto.categoria := "pasteleria";
     Producto.descripcion := None; Producto.disponible := true |}.

Definition db0 : DB :=
  {| clientes := [ana]; productos := [pan; tarta]; pedidos := []; writes := [] |}.

Definition item (producto_id : string) (cantidad : Z) : Item.t :=
  {| Item.producto_id := producto_id; Item.cantidad := cantidad |}.

Definition solicitud (cliente_id fecha : string) (items : list Item.t)
  : PedidoCreate.t :=
  {| PedidoCreate.cliente_id := cliente_id;
     PedidoCreate.fecha_entrega_estimada := fecha;
     PedidoCreate.productos := items |}.

Definition crear (uuid4 : string) : PedidoCreate.t -> M Pedido.t :=
  crear_pedido Strptime.Ymd uuid4 t0.

(** An order document with a given status and total. *)
Definition pedido_con (id estado : string) (total : float) : Pedido.t :=
  {| Pedido.id := id; Pedido.cliente_id := "c-ana";
     Pedido.nombre_cliente := "Ana"; Pedido.fecha_pedido := t0;
     Pedido.fecha_entrega_estimada := t0; Pedido.estado := estado;
     Pedido.productos := []; Pedido.total := total |}.

Definition db_cinco : DB :=
  {| clientes := [ana]; productos := [pan; tarta];
     pedidos := [pedido_con "o1" "pendiente" 7; pedido_con "o2" "pendiente" 2;
                 pedido_con "o3" "en_proceso" 4; pedido_con "o4" "completado" 10;
                 pedido_con "o5" "completado" 5];
     writes := [] |}.

End Ejemplo.

(** Requests on the sample store and the orders they produce. *)
Module Caso.
Import Ejemplo.

Definition entrega : datetime :=
  {| year := 2024; month := 5; day := 3;
     hour := 0; minute := 0; second := 0; microsecond := 0 |}.

Definition detalle (producto_id nombre : string) (cantidad : Z)
    (precio subtotal : float) : DetalleProducto.t :=
  {| DetalleProducto.producto_id := producto_id;
     DetalleProducto.nombre_producto := nombre;
     DetalleProducto.cantidad := cantidad;
     DetalleProducto.precio_unitario := precio;
     DetalleProducto.subtotal := subtotal |}.

Definition pedido_nuevo (id : string) (ds : list DetalleProducto.t)
    (total : float) : Pedido.t :=
  {| Pedido.id := id; Pedido.cliente_id := "c-ana";
     Pedido.nombre_cliente := "Ana"; Pedido.fecha_pedido := t0;
     Pedido.fecha_entrega_estimada := entrega; Pedido.estado := "pendiente";
     Pedido.productos := ds; Pedido.total := total |}.

Definition db_con (p : Pedido.t) : DB :=
  {| clientes := [ana]; productos := [pan; tarta]; pedidos := [p];
     writes := [(Pedidos, Insert_one)] |}.

(** Two loaves and one cake. *)
Definition solicitud_ana : PedidoCreate.t :=
  solicitud "c-ana" "2024-05-03" [item "p-pan" 2; item "p-tarta" 1].
Definition pedido_ana : Pedido.t :=
  pedido_nuevo "o-1"
    [detalle "p-pan" "Pan" 2 3 6; detalle "p-tarta" "Tarta" 1 5.5 5.5] 11.5.


(** No line at all. *)
Definition solicitud_vacia : PedidoCreate.t :=
  solicitud "c-ana" "2024-05-03" [].
Definition pedido_vacio : Pedido.t := pedido_nuevo "o-3" [] 0.

(** A quantity too large for a float. *)
Definition solicitud_enorme : PedidoCreate.t :=
  solicitud "c-ana" "2024-05-03" [item "p-pan" (2 ^ 1024)].

(** A quantity that converts to a float and does not fit in 8 bytes. *)
Definition solicitud_nueve_bytes : PedidoCreate.t :=
  solicitud "c-ana" "2024-05-03" [item "p-pan" (2 ^ 63)].

(** The largest and the smallest quantity of 8 bytes. *)
Definition solicitud_ocho_bytes : PedidoCreate.t :=
  solicitud "c-ana" "2024-05-03"
    [item "p-pan" (2 ^ 63 - 1); item "p-tarta" (- 2 ^ 63)].

(** An unknown customer and a text that is not a date. *)
Definition solicitud_sin_cliente : PedidoCreate.t :=
  solicitud "c-nadie" "pronto" [item "p-pan" 1].

(** A known customer, a text that is not a date and an unknown product. *)
Definition solicitud_sin_fecha : PedidoCreate.t :=
  solicitud "c-ana" "pronto" [item "p-pan" 1; item "p-nada" 1].

(** A known customer, a date, and an unknown product after a known one. *)
Definition solicitud_sin_producto : PedidoCreate.t :=
  solicitud "c-ana" "2024-05-03"
    [item "p-pan" 1; item "p-nada" 1; item "p-otro" 2].

(** A new status for the first order of [db_cinco]. *)
Definition db_cinco_o1 (estado : string) : DB :=
  {| clientes := [ana]; productos := [pan; tarta];
     pedidos := [pedido_con "o1" estado 7; pedido_con "o2" "pendiente" 2;
                 pedido_con "o3" "en_proceso" 4; pedido_con "o4" "completado" 10;
                 pedido_con "o5" "completado" 5];
     writes := [(Pedidos, Update_one)] |}.

(** [db_cinco] without its first order, which is pending. *)
Definition db_cinco_sin_o1 : DB :=
  {| clientes := [ana]; productos := [pan; tarta];
     pedidos := [pedido_con "o2" "pendiente" 2;
                 pedido_con "o3" "en_proceso" 4; pedido_con "o4" "completado" 10;
                 pedido_con "o5" "completado" 5];
     writes := [] |}.

(** New data for Ana, and for the loaf at a new price. *)
Definition ana_nueva : ClienteCreate.t :=
  {| ClienteCreate.nombre := "Ana Maria";
     ClienteCreate.telefono := "600999888";
     ClienteCreate.email := Some "ana@example.org";
     ClienteCreate.direccion := None |}.

Definition ana_actualizada : Cliente.t :=
  {| Cliente.id := "c-ana"; Cliente.nombre := "Ana Maria";
     Cliente.telefono := "600999888";
     Cliente.email := Some "ana@example.org";
     Cliente.direccion := None; Cliente.fecha_registro := t0 |}.

Definition pan_caro : ProductoCreate.t :=
  {| ProductoCreate.nombre := "Pan de masa madre";
     ProductoCreate.precio := 4.25%float;
     ProductoCreate.categoria := "panaderia";
     ProductoCreate.descripcion := None;
     ProductoCreate.disponible := true |}.

End Caso.

(** * Vocabulary of the properties *)

Local Open Scope list_scope.

(** The sum of a list of floats, added from left to right onto [0.0]. *)
Definition suma (xs : list float) : float :=
  List.fold_left PrimFloat.add xs 0%float.

(** The lines of an order, read off the catalogue:

    [lineas_de catalogo items] is the list [productos_detalle] that the loop
    of [crear_pedido] builds from [items] when the product collection is
    [catalogo], or the first exception the loop raises. *)

Definition linea (producto : Producto.t) (item : Item.t) (subtotal : float)
  : DetalleProducto.t :=
  {| DetalleProducto.producto_id := Item.producto_id item;
     DetalleProducto.nombre_producto := Producto.nombre producto;
     DetalleProducto.cantidad := Item.cantidad item;
     DetalleProducto.precio_unitario := Producto.precio producto;
     DetalleProducto.subtotal := subtotal |}.

Fixpoint lineas_de (catalogo : list Producto.t) (items : list Item.t)
  : outcome (list DetalleProducto.t) :=
  match items with
  | [] => Return []
  | item :: rest =>
      match Collection.find_one Producto.id (Item.producto_id item) catalogo with
      | None => Raise (producto_item_no_encontrado (Item.producto_id item))
      | Some producto =>
          match float_mul_int (Producto.precio producto) (Item.cantidad item) with
          | Raise e => Raise e
          | Return subtotal =>
              match lineas_de catalogo rest with
              | Raise e => Raise e
              | Return ds => Return (linea producto item subtotal :: ds)
              end
          end
      end
  end.

Definition total_final (total : number) (x : float) (subtotales : list float)
  : number :=
  match subtotales with
  | [] => total
  | _ :: _ => PyFloat (List.fold_left PrimFloat.add subtotales x)
  end.

(** The order document [crear_pedido] builds from the customer found, the
    parsed date and the lines. *)
Definition pedido_de (uuid4 : string) (utcnow : datetime)
    (pedido : PedidoCreate.t) (cliente : Cliente.t)
    (fecha_entrega : datetime) (ds : list DetalleProducto.t) : Pedido.t :=
  {| Pedido.id := uuid4;
     Pedido.cliente_id := PedidoCreate.cliente_id pedido;
     Pedido.nombre_cliente := Cliente.nombre cliente;
     Pedido.fecha_pedido := utcnow;
     Pedido.fecha_entrega_estimada := fecha_entrega;
     Pedido.estado := "pendiente";
     Pedido.productos := ds;
     Pedido.total := suma (List.map DetalleProducto.subtotal ds) |}.

(** The store after one [insert_one] on the order collection. *)
Definition con_pedido (p : Pedido.t) (db : DB) : DB :=
  {| clientes := clientes db;
     productos := productos db;
     pedidos := pedidos db ++ [p];
     writes := writes db ++ [(Pedidos, Insert_one)] |}.

(** [cantidad * precio_unitario] of a stored line, as Python computes it. *)
Definition importe (d : DetalleProducto.t) : outcome float :=
  float_mul_int (DetalleProducto.precio_unitario d) (DetalleProducto.cantidad d).

(** [item] can be priced on [catalogo]: its product is there and its
    quantity converts to a float. *)
Definition valorable (catalogo : list Producto.t) (item : Item.t) : Prop :=
  exists producto g,
    Collection.find_one Producto.id (Item.producto_id item) catalogo
    = Some producto
    /\ float_of_int (Item.cantidad item) = Return g.


(** [d] is the line of [item]: same product id and quantity, name and unit
    price of the product that [catalogo] holds under that id, and subtotal
    the product of quantity and unit price. *)
Definition linea_correcta (catalogo : list Producto.t) (item : Item.t)
    (d : DetalleProducto.t) : Prop :=
  DetalleProducto.producto_id d = Item.producto_id item
  /\ DetalleProducto.cantidad d = Item.cantidad item
  /\ (exists producto,
        Collection.find_one Producto.id (Item.producto_id item) catalogo
        = Some producto
        /\ DetalleProducto.precio_unitario d = Producto.precio producto
        /\ DetalleProducto.nombre_producto d = Producto.nombre producto)
  /\ importe d = Return (DetalleProducto.subtotal d).

(** An update of the catalogue or of the customers: one call of
    [actualizar_producto] or of [actualizar_cliente]. *)
Inductive actualizacion : Type :=
| Act_producto (producto_id : string) (producto : ProductoCreate.t)
| Act_cliente (cliente_id : string) (cliente : ClienteCreate.t).

(** The store after the call, whether it returned or raised. *)
Definition aplicar (db : DB) (a : actualizacion) : DB :=
  match a with
  | Act_producto producto_id producto =>
      fst (actualizar_producto producto_id producto db)
  | Act_cliente cliente_id cliente =>
      fst (actualizar_cliente cliente_id cliente db)
  end.

Definition aplicar_todas (acts : list actualizacion) (db : DB) : DB :=
  List.fold_left aplicar acts db.

(** The orders whose status is exactly ["completado"]. *)
Definition completados (ps : list Pedido.t) : list Pedido.t :=
  List.filter (con_estado "completado") ps.

(** The number of orders whose status is exactly [e]. *)
Definition cuenta (e : string) (ps : list Pedido.t) : Z :=
  Z.of_nat (List.count_occ string_dec (List.map Pedido.estado ps) e).

(** Stores for the properties of the whole API. *)
Module Escena.
Import Ejemplo.

(** An order placed on a given day of May 2024. *)
Definition pedido_del_dia (id : string) (dia : Z) : Pedido.t :=
  {| Pedido.id := id; Pedido.cliente_id := "c-ana";
     Pedido.nombre_cliente := "Ana";
     Pedido.fecha_pedido :=
       {| year := 2024; month := 5; day := dia;
          hour := 8; minute := 0; second := 0; microsecond := 0 |};
     Pedido.fecha_entrega_estimada := t0; Pedido.estado := "pendiente";
     Pedido.productos := []; Pedido.total := 1 |}.

(** Three orders, oldest first. *)
Definition db_tres_dias : DB :=
  {| clientes := [ana]; productos := [pan; tarta];
     pedidos := [pedido_del_dia "d1" 1; pedido_del_dia "d2" 2;
                 pedido_del_dia "d3" 3];
     writes := [] |}.

(** A store with a thousand customers. *)
Definition db_mil_clientes : DB :=
  {| clientes := List.repeat ana 1000; productos := []; pedidos := [];
     writes := [] |}.

End Escena.

(** ** Vocabulary of the properties of the whole API *)

(** Lexicographic order on the fields of a date, most significant first. *)
Fixpoint lex_leb (a b : list Z) : bool :=
  match a, b with
  | [], _ => true
  | _ :: _, [] => false
  | x :: a', y :: b' => (x <? y) || ((x =? y) && lex_leb a' b')
  end.

Definition datetime_fields (d : datetime) : list Z :=
  [year d; month d; day d; hour d; minute d; second d; microsecond d].

(** [a <= b] on [datetime]. *)
Definition datetime_leb (a b : datetime) : bool :=
  lex_leb (datetime_fields a) (datetime_fields b).

(** The order [a] was placed no earlier than the order [b]. *)
Definition no_anterior (a b : Pedido.t) : Prop :=
  datetime_leb (Pedido.fecha_pedido b) (Pedido.fecha_pedido a) = true.

(** No two documents of a collection bear the same [id]. *)
Definition ids_unicos (db : DB) : Prop :=
  NoDup (List.map Cliente.id (clientes db))
  /\ NoDup (List.map Producto.id (productos db))
  /\ NoDup (List.map Pedido.id (pedidos db)).

(** The identifier a creating request brings is not in use. *)
Definition fresca (c : llamada) (db : DB) : Prop :=
  match c with
  | Crear_cliente uuid4 _ _ => ~ In uuid4 (List.map Cliente.id (clientes db))
  | Crear_producto uuid4 _ => ~ In uuid4 (List.map Producto.id (productos db))
  | Crear_pedido uuid4 _ _ => ~ In uuid4 (List.map Pedido.id (pedidos db))
  | _ => True
  end.

(** Each request of the sequence is [fresca] on the store it runs on. *)
Fixpoint frescas (strptime_Ymd : string -> option datetime)
    (sort_fecha_pedido : list Pedido.t -> list Pedido.t)
    (cs : list llamada) (db : DB) : Prop :=
  match cs with
  | [] => True
  | c :: rest =>
      fresca c db
      /\ frescas strptime_Ymd sort_fecha_pedido rest
           (fst (ejecutar strptime_Ymd sort_fecha_pedido c db))
  end.

(** Every stored order has one of the four statuses. *)
Definition estados_reconocidos (db : DB) : Prop :=
  Forall (fun p => In (Pedido.estado p) estados_validos) (pedidos db).

(** The collection a request may write, if any. *)
Definition coleccion_de (c : llamada) : option coleccion :=
  match c with
  | Crear_cliente _ _ _ | Actualizar_cliente _ _ | Eliminar_cliente _ =>
      Some Clientes
  | Crear_producto _ _ | Actualizar_producto _ _ | Eliminar_producto _ =>
      Some Productos
  | Crear_pedido _ _ _ | Actualizar_estado_pedido _ _ | Eliminar_pedido _ =>
      Some Pedidos
  | _ => None
  end.

(** The exceptions the API raises: a 404 from any endpoint that takes an
    id, a 400 from order composition and status update, [OverflowError]
    from order composition. *)
Definition excepcion_de (c : llamada) (e : exn) : Prop :=
  match e with
  | HTTPException code _ =>
      code = 404
      \/ (code = 400
          /\ match c with
             | Crear_pedido _ _ _ | Actualizar_estado_pedido _ _ => True
             | _ => False
             end)
  | OverflowError =>
      match c with
      | Crear_pedido _ _ _ => True
      | _ => False
      end
  | TypeError => False
  end.

Definition db_vacia : DB :=
  {| clientes := []; productos := []; pedidos := []; writes := [] |}.

(** A season of the bakery, through the API and from the empty store: one
    customer, one product at price 1, and 1001 orders of one unit each,
    every one composed under an identifier of its own (["o-1"], ...,
    ["o-1001"]) and then set to "completado". *)
Module Temporada.
Import Ejemplo.

Definition ana_alta : ClienteCreate.t :=
  {| ClienteCreate.nombre := "Ana";
     ClienteCreate.telefono := "600100200";
     ClienteCreate.email := None;
     ClienteCreate.direccion := Some "Calle Mayor 1" |}.

Definition bollo : ProductoCreate.t :=
  {| ProductoCreate.nombre := "Bollo";
     ProductoCreate.precio := 1%float;
     ProductoCreate.categoria := "bolleria";
     ProductoCreate.descripcion := None;
     ProductoCreate.disponible := true |}.

Definition id_pedido (n : nat) : string :=
  "o-" ++ NilEmpty.string_of_uint (Nat.to_uint n).

Definition pedir_y_completar (n : nat) : list llamada :=
  [Crear_pedido (id_pedido n) t0
     (solicitud "c-ana" "2024-05-03" [item "p-bollo" 1]);
   Actualizar_estado_pedido (id_pedido n) "completado"].

Definition llamadas : list llamada :=
  Crear_cliente "c-ana" t0 ana_alta
  :: Crear_producto "p-bollo" bollo
  :: List.flat_map pedir_y_completar (List.seq 1 1001).

Definition db_mil_uno : DB :=
  ejecutar_todas Strptime.Ymd (@List.rev Pedido.t) llamadas db_vacia.

End Temporada.

(** * Properties *)

(** ** Facts about the collections *)

Section CollectionFacts.
Context {A : Type} (key : A -> string).

Lemma find_one_app_none (k : string) (l1 l2 : list A) :
  Collection.find_one key k l1 = None ->
  Collection.find_one key k (l1 ++ l2) = Collection.find_one key k l2.
Proof.
  unfold Collection.find_one.
  induction l1 as [|d l1 IH]; simpl; [reflexivity|].
  destruct (String.eqb (key d) k); [discriminate | exact IH].
Qed.

Lemma find_one_split (k : string) (docs : list A) (d : A) :
  Collection.find_one key k docs = Some d ->
  exists l1 l2, docs = l1 ++ d :: l2 /\ key d = k /\
                Collection.find_one key k l1 = None.
Proof.
  unfold Collection.find_one.
  induction docs as [|x docs IH]; simpl; [discriminate|].
  destruct (String.eqb (key x) k) eqn:E.
  - intros [= ->]. exists [], docs. apply String.eqb_eq in E. auto.
  - intros H. destruct (IH H) as (l1 & l2 & -> & Hk & Hn).
    exists (x :: l1), l2. simpl. rewrite E. auto.
Qed.

Lemma find_one_middle (k : string) (l1 l2 : list A) (d : A) :
  key d = k ->
  Collection.find_one key k l1 = None ->
  Collection.find_one key k (l1 ++ d :: l2) = Some d.
Proof.
  intros Hk Hn. rewrite find_one_app_none by exact Hn.
  unfold Collection.find_one. simpl.
  rewrite (proj2 (String.eqb_eq _ _) Hk). reflexivity.
Qed.

Lemma update_one_middle (k : string) (set : A -> A) (l1 l2 : list A) (d : A) :
  key d = k ->
  Collection.find_one key k l1 = None ->
  Collection.update_one key k set (l1 ++ d :: l2) = l1 ++ set d :: l2.
Proof.
  intros Hk. unfold Collection.find_one.
  induction l1 as [|x l1 IH]; simpl.
  - intros _. rewrite (proj2 (String.eqb_eq _ _) Hk). reflexivity.
  - destruct (String.eqb (key x) k); [discriminate|].
    intros H. rewrite (IH H). reflexivity.
Qed.

End CollectionFacts.

Lemma str_in_In (x : string) (xs : list string) :
  str_in x xs = true <-> In x xs.
Proof.
  unfold str_in. rewrite existsb_exists. split.
  - intros (y & Hy & E). apply String.eqb_eq in E. subst. exact Hy.
  - intros H. exists x. split; [exact H | apply String.eqb_refl].
Qed.

(** ** The arithmetic of the accumulators *)

Lemma float_of_int_0 : float_of_int 0 = Return 0%float.
Proof. reflexivity. Qed.

(** ** The conversion of an integer of 8 bytes

    [binary_normalize] shifts the integer to 53 binary digits and rounds;
    the exponent it ends with is at most the number of digits of the
    integer, far below the largest exponent of a binary64 number. *)












Lemma number_add_float_ok (n : number) (x s : float) :
  pydantic_float n = Return x ->
  number_add_float n s = Return (PyFloat (PrimFloat.add x s)).
Proof.
  destruct n as [z|g]; simpl.
  - intros ->. reflexivity.
  - intros [= ->]. reflexivity.
Qed.

Lemma sum_from_ok (xs : list float) : forall (n : number) (x : float),
  pydantic_float n = Return x ->
  exists n', sum_from n xs = Return n' /\
             pydantic_float n' = Return (List.fold_left PrimFloat.add xs x).
Proof.
  induction xs as [|s xs IH]; intros n x Hn; simpl.
  - exists n. auto.
  - rewrite (number_add_float_ok n x s Hn). apply IH. reflexivity.
Qed.

Lemma pydantic_float_total_final (total : number) (x : float) (ss : list float) :
  pydantic_float total = Return x ->
  pydantic_float (total_final total x ss)
  = Return (List.fold_left PrimFloat.add ss x).
Proof. destruct ss; simpl; auto. Qed.

Ltac run :=
  unfold bind, ret, raise, lift, clientes_find_one, productos_find_one,
    pedidos_find_one, clientes_update_one, productos_update_one,
    pedidos_update_one_estado, pedidos_insert_one, log,
    Collection.insert_one; simpl.

Lemma procesar_productos_eq (items : list Item.t) :
  forall (det : list DetalleProducto.t) (total : number) (x : float) (db : DB),
    pydantic_float total = Return x ->
    procesar_productos items det total db
    = (db, match lineas_de (productos db) items with
           | Return ds =>
               Return (det ++ ds,
                       total_final total x (List.map DetalleProducto.subtotal ds))
           | Raise e => Raise e
           end).
Proof.
  induction items as [|item rest IH]; intros det total x db Hx; simpl.
  - run. rewrite app_nil_r. reflexivity.
  - run.
    destruct (Collection.find_one Producto.id (Item.producto_id item) (productos db))
      as [producto|]; [|reflexivity].
    destruct (float_mul_int (Producto.precio producto) (Item.cantidad item))
      as [s|e]; [|reflexivity].
    rewrite (number_add_float_ok total x s Hx).
    fold (linea producto item s).
    rewrite (IH _ (PyFloat (PrimFloat.add x s)) (PrimFloat.add x s) db eq_refl).
    destruct (lineas_de (productos db) rest) as [ds|e]; [|reflexivity].
    rewrite <- app_assoc. simpl.
    destruct ds; reflexivity.
Qed.

Section CrearPedidoFacts.
Variable strptime_Ymd : string -> option datetime.
Variable uuid4 : string.
Variable utcnow : datetime.

Lemma crear_pedido_eq (pedido : PedidoCreate.t) (db : DB) :
  crear_pedido strptime_Ymd uuid4 utcnow pedido db
  = match Collection.find_one Cliente.id (PedidoCreate.cliente_id pedido)
            (clientes db) with
    | None => (db, Raise cliente_no_encontrado)
    | Some cliente =>
        match strptime_Ymd (PedidoCreate.fecha_entrega_estimada pedido) with
        | None => (db, Raise fecha_invalida)
        | Some fecha_entrega =>
            match lineas_de (productos db) (PedidoCreate.productos pedido) with
            | Raise e => (db, Raise e)
            | Return ds =>
                let p := pedido_de uuid4 utcnow pedido cliente fecha_entrega ds in
                if Bson.pedido p
                then (con_pedido p db, Return p)
                else (db, Raise OverflowError)
            end
        end
    end.
Proof.
  unfold crear_pedido. unfold bind at 1. unfold clientes_find_one.
  destruct (Collection.find_one Cliente.id _ (clientes db)) as [cliente|];
    [|reflexivity].
  destruct (strptime_Ymd _) as [fecha|]; [|reflexivity].
  unfold bind at 1.
  rewrite (procesar_productos_eq _ [] (PyInt 0) 0%float db float_of_int_0).
  destruct (lineas_de (productos db) (PedidoCreate.productos pedido)) as [ds|e];
    [|reflexivity].
  unfold bind at 1. unfold lift. simpl fst. simpl snd.
  rewrite (pydantic_float_total_final (PyInt 0) 0%float _ float_of_int_0).
  unfold bind, pedidos_insert_one, ret, Bson.pedido, pedido_de. cbv zeta.
  cbn [Pedido.productos].
  destruct (List.forallb _ ds); reflexivity.
Qed.

End CrearPedidoFacts.

(** ** What the lines of a composed order are *)

Lemma lineas_de_correctas (catalogo : list Producto.t) (items : list Item.t) :
  forall ds, lineas_de catalogo items = Return ds ->
             Forall2 (linea_correcta catalogo) items ds.
Proof.
  induction items as [|item rest IH]; simpl; intros ds H.
  - injection H as <-. constructor.
  - destruct (Collection.find_one Producto.id (Item.producto_id item) catalogo)
      as [producto|] eqn:Hf; [|discriminate].
    destruct (float_mul_int (Producto.precio producto) (Item.cantidad item))
      as [s|e] eqn:Hm; [|discriminate].
    destruct (lineas_de catalogo rest) as [ds'|e]; [|discriminate].
    injection H as <-. constructor; [|apply IH; reflexivity].
    unfold linea_correcta, importe; simpl.
    repeat split; try assumption. exists producto. auto.
Qed.





Lemma lineas_de_primera_ausente (catalogo : list Producto.t)
    (pre post : list Item.t) (item : Item.t) :
  Forall (valorable catalogo) pre ->
  Collection.find_one Producto.id (Item.producto_id item) catalogo = None ->
  lineas_de catalogo (pre ++ item :: post)
  = Raise (producto_item_no_encontrado (Item.producto_id item)).
Proof.
  intros Hpre Hno.
  induction Hpre as [|x pre (producto & g & Hf & Hg) _ IH]; simpl.
  - rewrite Hno. reflexivity.
  - rewrite Hf. unfold float_mul_int. rewrite Hg, IH. reflexivity.
Qed.

Lemma lineas_de_ausente (catalogo : list Producto.t) (items : list Item.t)
    (item : Item.t) :
  In item items ->
  Collection.find_one Producto.id (Item.producto_id item) catalogo = None ->
  exists e, lineas_de catalogo items = Raise e.
Proof.
  intros Hin Hno.
  induction items as [|x rest IH]; simpl; [contradiction|].
  destruct (Collection.find_one Producto.id (Item.producto_id x) catalogo)
    as [producto|] eqn:Hf; [|eexists; reflexivity].
  destruct (float_mul_int (Producto.precio producto) (Item.cantidad x));
    [|eexists; reflexivity].
  destruct Hin as [-> | Hin]; [congruence|].
  destruct (IH Hin) as (e & ->). eexists. reflexivity.
Qed.

Lemma importe_subtotales (catalogo : list Producto.t) (items : list Item.t)
    (ds : list DetalleProducto.t) :
  Forall2 (linea_correcta catalogo) items ds ->
  List.map importe ds
  = List.map (fun d => Return (DetalleProducto.subtotal d)) ds.
Proof.
  induction 1 as [|item d items ds (_ & _ & _ & Hd) _ IH]; simpl.
  - reflexivity.
  - rewrite Hd, IH. reflexivity.
Qed.

Lemma importe_de_lineas (catalogo : list Producto.t) (items : list Item.t)
    (ds : list DetalleProducto.t) :
  Forall2 (linea_correcta catalogo) items ds ->
  Forall (fun d => importe d = Return (DetalleProducto.subtotal d)) ds.
Proof.
  induction 1 as [|item d items ds (_ & _ & _ & Hd) _ IH]; constructor;
    assumption.
Qed.

(** ** Order composition *)

Section CrearPedidoClaims.
Variable strptime_Ymd : string -> option datetime.
Variable uuid4 : string.
Variable utcnow : datetime.

(** What a call that returns has done. *)
Lemma crear_pedido_return (pedido : PedidoCreate.t) (db db' : DB) (p : Pedido.t) :
  crear_pedido strptime_Ymd uuid4 utcnow pedido db = (db', Return p) ->
  exists cliente fecha_entrega ds,
    Collection.find_one Cliente.id (PedidoCreate.cliente_id pedido) (clientes db)
    = Some cliente
    /\ strptime_Ymd (PedidoCreate.fecha_entrega_estimada pedido)
       = Some fecha_entrega
    /\ lineas_de (productos db) (PedidoCreate.productos pedido) = Return ds
    /\ p = pedido_de uuid4 utcnow pedido cliente fecha_entrega ds
    /\ db' = con_pedido p db.
Proof.
  rewrite crear_pedido_eq.
  destruct (Collection.find_one Cliente.id _ (clientes db)) as [cliente|];
    [|discriminate].
  destruct (strptime_Ymd _) as [fecha|]; [|discriminate].
  destruct (lineas_de _ _) as [ds|e] eqn:Hl; [|discriminate].
  cbv zeta. destruct (Bson.pedido _); [|discriminate].
  intros [= <- <-]. exists cliente, fecha, ds. auto.
Qed.

(** What a call that raises has done. *)
Lemma crear_pedido_raise (pedido : PedidoCreate.t) (db db' : DB) (e : exn) :
  crear_pedido strptime_Ymd uuid4 utcnow pedido db = (db', Raise e) ->
  db' = db.
Proof.
  rewrite crear_pedido_eq.
  destruct (Collection.find_one Cliente.id _ (clientes db)); [|congruence].
  destruct (strptime_Ymd _); [|congruence].
  destruct (lineas_de _ _); [|congruence].
  cbv zeta. destruct (Bson.pedido _); congruence.
Qed.

(** C1. For an order that [crear_pedido] composed: the order is the one
    appended to the order collection; its lines are, in order, the lines of
    the request, each with the name and the price of the product the store
    held under that id when the order was composed and with subtotal equal
    to the (binary64) product of quantity and unit price; and the total is
    the sum of these products, added in line order. *)
Theorem crear_pedido_total_invariant
    (pedido : PedidoCreate.t) (db db' : DB) (p : Pedido.t)
    (Hok : crear_pedido strptime_Ymd uuid4 utcnow pedido db = (db', Return p)) :
  pedidos db' = pedidos db ++ [p]
  /\ Forall2 (linea_correcta (productos db))
             (PedidoCreate.productos pedido) (Pedido.productos p)
  /\ Forall (fun d => importe d = Return (DetalleProducto.subtotal d))
            (Pedido.productos p)
  /\ (exists importes,
        List.map importe (Pedido.productos p) = List.map Return importes
        /\ Pedido.total p = suma importes).
Proof.
  destruct (crear_pedido_return _ _ _ _ Hok)
    as (cliente & fecha & ds & _ & _ & Hl & -> & ->).
  pose proof (lineas_de_correctas _ _ _ Hl) as Hds.
  simpl. split; [reflexivity|]. split; [exact Hds|]. split.
  - exact (importe_de_lineas _ _ _ Hds).
  - exists (List.map DetalleProducto.subtotal ds). split; [|reflexivity].
    rewrite (importe_subtotales _ _ _ Hds), List.map_map. reflexivity.
Qed.

(** C2 (as amended). The checks of [crear_pedido] come in a fixed order.
    An unknown customer id gives the 404 "Cliente no encontrado", whatever
    the date text and the lines are.  With a known customer, a date text
    that [strptime] rejects gives the 400 "Formato de fecha inválido".  With
    a known customer and a date that parses, the first line whose product
    id is unknown, when the lines before it can be priced, gives the 404
    that names that product id.  The three exceptions are pairwise
    different: the 400 differs from both 404 by status code, the two 404 by
    detail. *)
Theorem crear_pedido_errores (pedido : PedidoCreate.t) (db : DB) :
  (Collection.find_one Cliente.id (PedidoCreate.cliente_id pedido) (clientes db)
   = None ->
   crear_pedido strptime_Ymd uuid4 utcnow pedido db
   = (db, Raise (HTTPException 404 "Cliente no encontrado")))
  /\ (forall cliente,
        Collection.find_one Cliente.id (PedidoCreate.cliente_id pedido)
          (clientes db) = Some cliente ->
        strptime_Ymd (PedidoCreate.fecha_entrega_estimada pedido) = None ->
        crear_pedido strptime_Ymd uuid4 utcnow pedido db
        = (db, Raise (HTTPException 400
                        "Formato de fecha inválido. Use YYYY-MM-DD")))
  /\ (forall cliente fecha_entrega pre item post,
        Collection.find_one Cliente.id (PedidoCreate.cliente_id pedido)
          (clientes db) = Some cliente ->
        strptime_Ymd (PedidoCreate.fecha_entrega_estimada pedido)
        = Some fecha_entrega ->
        PedidoCreate.productos pedido = pre ++ item :: post ->
        Forall (valorable (productos db)) pre ->
        Collection.find_one Producto.id (Item.producto_id item) (productos db)
        = None ->
        crear_pedido strptime_Ymd uuid4 utcnow pedido db
        = (db, Raise (HTTPException 404
                        ("Producto " ++ Item.producto_id item
                         ++ " no encontrado")%string)))
  /\ (forall producto_id : string,
        HTTPException 404 "Cliente no encontrado"
        <> HTTPException 400 "Formato de fecha inválido. Use YYYY-MM-DD"
        /\ HTTPException 404
             ("Producto " ++ producto_id ++ " no encontrado")%string
           <> HTTPException 400 "Formato de fecha inválido. Use YYYY-MM-DD"
        /\ HTTPException 404
             ("Producto " ++ producto_id ++ " no encontrado")%string
           <> HTTPException 404 "Cliente no encontrado").
Proof.
  rewrite crear_pedido_eq. repeat split.
  - intros ->. reflexivity.
  - intros cliente -> ->. reflexivity.
  - intros cliente fecha pre item post -> -> -> Hpre Hno.
    rewrite (lineas_de_primera_ausente _ _ _ _ Hpre Hno). reflexivity.
  - discriminate.
  - discriminate.
  - simpl. discriminate.
Qed.

(** C3 (as amended). A call of [crear_pedido] that returns has issued one
    write, the [insert_one] of the returned order on the order collection,
    and changed nothing else; a call that raises has issued none and left
    the store as it was.  A request with a line whose product id is unknown
    never returns; when the customer is known, the date parses and the
    lines before the first such line can be priced, the exception is the
    404 that names that first product id. *)
Theorem crear_pedido_escrituras
    (pedido : PedidoCreate.t) (db db' : DB) (r : outcome Pedido.t)
    (Hrun : crear_pedido strptime_Ymd uuid4 utcnow pedido db = (db', r)) :
  match r with
  | Return p =>
      db' = {| clientes := clientes db;
               productos := productos db;
               pedidos := pedidos db ++ [p];
               writes := writes db ++ [(Pedidos, Insert_one)] |}
  | Raise _ => db' = db
  end
  /\ ((exists item,
         In item (PedidoCreate.productos pedido)
         /\ Collection.find_one Producto.id (Item.producto_id item)
              (productos db) = None) ->
      exists e, r = Raise e /\ pedidos db' = pedidos db /\ writes db' = writes db)
  /\ (forall cliente fecha_entrega pre item post,
        Collection.find_one Cliente.id (PedidoCreate.cliente_id pedido)
          (clientes db) = Some cliente ->
        strptime_Ymd (PedidoCreate.fecha_entrega_estimada pedido)
        = Some fecha_entrega ->
        PedidoCreate.productos pedido = pre ++ item :: post ->
        Forall (valorable (productos db)) pre ->
        Collection.find_one Producto.id (Item.producto_id item) (productos db)
        = None ->
        r = Raise (HTTPException 404
                     ("Producto " ++ Item.producto_id item
                      ++ " no encontrado")%string)).
Proof.
  split; [|split].
  - destruct r as [p|e].
    + destruct (crear_pedido_return _ _ _ _ Hrun)
        as (c & f & ds & _ & _ & _ & _ & ->). reflexivity.
    + exact (crear_pedido_raise _ _ _ _ Hrun).
  - intros (item & Hin & Hno).
    destruct (lineas_de_ausente _ _ _ Hin Hno) as (e & He).
    destruct r as [p|e'].
    + destruct (crear_pedido_return _ _ _ _ Hrun)
        as (c & f & ds & _ & _ & Hl & _). congruence.
    + exists e'. rewrite (crear_pedido_raise _ _ _ _ Hrun). auto.
  - intros cliente fecha pre item post Hc Hf Hp Hpre Hno.
    rewrite crear_pedido_eq, Hc, Hf, Hp in Hrun.
    rewrite (lineas_de_primera_ausente _ _ _ _ Hpre Hno) in Hrun.
    injection Hrun as _ <-. reflexivity.
Qed.

(** C7 (as amended). [crear_pedido] does not look at the number of lines:
    an order it persists has exactly one line per line of the request, and
    a request with no lines, from a known customer and with a date that
    parses, is accepted: an order with no lines and total [0.0] is returned
    and appended to the order collection. *)
Theorem crear_pedido_lineas_vacias (pedido : PedidoCreate.t) (db : DB) :
  (forall db' p,
     crear_pedido strptime_Ymd uuid4 utcnow pedido db = (db', Return p) ->
     List.length (Pedido.productos p)
     = List.length (PedidoCreate.productos pedido))
  /\ (forall cliente fecha_entrega,
        Collection.find_one Cliente.id (PedidoCreate.cliente_id pedido)
          (clientes db) = Some cliente ->
        strptime_Ymd (PedidoCreate.fecha_entrega_estimada pedido)
        = Some fecha_entrega ->
        PedidoCreate.productos pedido = [] ->
        exists db' p,
          crear_pedido strptime_Ymd uuid4 utcnow pedido db = (db', Return p)
          /\ pedidos db' = pedidos db ++ [p]
          /\ Pedido.productos p = []
          /\ Pedido.total p = 0%float).
Proof.
  split.
  - intros db' p Hok.
    destruct (crear_pedido_return _ _ _ _ Hok)
      as (c & f & ds & _ & _ & Hl & -> & _).
    simpl. symmetry. exact (Forall2_length (lineas_de_correctas _ _ _ Hl)).
  - intros cliente fecha Hc Hf Hp.
    rewrite crear_pedido_eq, Hc, Hf, Hp. simpl.
    eexists. eexists. split; [reflexivity|]. simpl. auto.
Qed.


End CrearPedidoClaims.

(** ** Order composition on the sample store *)

Lemma valorable_pan_1 :
  Forall (valorable (productos Ejemplo.db0)) [Ejemplo.item "p-pan" 1].
Proof.
  constructor; [|constructor].
  exists Ejemplo.pan, 1%float. split; reflexivity.
Qed.

Lemma crear_pedido_total_invariant_witness :
  Ejemplo.crear "o-1" Caso.solicitud_ana Ejemplo.db0
  = (Caso.db_con Caso.pedido_ana, Return Caso.pedido_ana)
  /\ (pedidos (Caso.db_con Caso.pedido_ana)
      = pedidos Ejemplo.db0 ++ [Caso.pedido_ana]
      /\ Forall2 (linea_correcta (productos Ejemplo.db0))
                 (PedidoCreate.productos Caso.solicitud_ana)
                 (Pedido.productos Caso.pedido_ana)
      /\ Forall (fun d => importe d = Return (DetalleProducto.subtotal d))
                (Pedido.productos Caso.pedido_ana)
      /\ (exists importes,
            List.map importe (Pedido.productos Caso.pedido_ana)
            = List.map Return importes
            /\ Pedido.total Caso.pedido_ana = suma importes)).
Proof.
  split; [reflexivity|].
  apply (crear_pedido_total_invariant Strptime.Ymd "o-1" Ejemplo.t0
           Caso.solicitud_ana Ejemplo.db0).
  reflexivity.
Defined.

(** The date text of the request does not parse, and yet the call does not
    raise a 400: the customer is unknown, and that check comes first. *)
Lemma crear_pedido_cliente_antes_que_fecha :
  ~ (Strptime.Ymd (PedidoCreate.fecha_entrega_estimada Caso.solicitud_sin_cliente)
     = None ->
     exists detail,
       snd (Ejemplo.crear "o-4" Caso.solicitud_sin_cliente Ejemplo.db0)
       = Raise (HTTPException 400 detail)).
Proof.
  intros H. destruct (H eq_refl) as (detail & Hd).
  vm_compute in Hd. discriminate Hd.
Qed.

Lemma crear_pedido_errores_witness :
  Ejemplo.crear "o-4" Caso.solicitud_sin_cliente Ejemplo.db0
  = (Ejemplo.db0, Raise (HTTPException 404 "Cliente no encontrado"))
  /\ Ejemplo.crear "o-4" Caso.solicitud_sin_fecha Ejemplo.db0
     = (Ejemplo.db0,
        Raise (HTTPException 400 "Formato de fecha inválido. Use YYYY-MM-DD"))
  /\ Ejemplo.crear "o-4" Caso.solicitud_sin_producto Ejemplo.db0
     = (Ejemplo.db0, Raise (HTTPException 404 "Producto p-nada no encontrado")).
Proof.
  split; [|split].
  - apply (proj1 (crear_pedido_errores Strptime.Ymd "o-4" Ejemplo.t0
                    Caso.solicitud_sin_cliente Ejemplo.db0)).
    reflexivity.
  - apply (proj1 (proj2 (crear_pedido_errores Strptime.Ymd "o-4" Ejemplo.t0
                           Caso.solicitud_sin_fecha Ejemplo.db0)) Ejemplo.ana);
      reflexivity.
  - apply (proj1 (proj2 (proj2
             (crear_pedido_errores Strptime.Ymd "o-4" Ejemplo.t0
                Caso.solicitud_sin_producto Ejemplo.db0)))
             Ejemplo.ana Caso.entrega
             [Ejemplo.item "p-pan" 1] (Ejemplo.item "p-nada" 1)
             [Ejemplo.item "p-otro" 2]);
      try reflexivity.
    exact valorable_pan_1.
Defined.

(** A line of the request names an unknown product, and yet the call does
    not raise a 404: the date text does not parse, and that check comes
    first. *)
Lemma crear_pedido_fecha_antes_que_producto :
  ~ ((exists item,
        In item (PedidoCreate.productos Caso.solicitud_sin_fecha)
        /\ Collection.find_one Producto.id (Item.producto_id item)
             (productos Ejemplo.db0) = None) ->
     exists detail,
       snd (Ejemplo.crear "o-4" Caso.solicitud_sin_fecha Ejemplo.db0)
       = Raise (HTTPException 404 detail)).
Proof.
  intros H. destruct H as (detail & Hd).
  - exists (Ejemplo.item "p-nada" 1). split; [right; left|]; reflexivity.
  - vm_compute in Hd. discriminate Hd.
Qed.

Lemma crear_pedido_escrituras_witness :
  (Ejemplo.crear "o-1" Caso.solicitud_ana Ejemplo.db0
   = (Caso.db_con Caso.pedido_ana, Return Caso.pedido_ana)
   /\ writes (Caso.db_con Caso.pedido_ana)
      = writes Ejemplo.db0 ++ [(Pedidos, Insert_one)])
  /\ (exists e,
        @Raise Pedido.t (HTTPException 404 "Producto p-nada no encontrado")
        = Raise e
        /\ pedidos Ejemplo.db0 = pedidos Ejemplo.db0
        /\ writes Ejemplo.db0 = writes Ejemplo.db0)
  /\ @Raise Pedido.t (HTTPException 404 "Producto p-nada no encontrado")
     = Raise (HTTPException 404 "Producto p-nada no encontrado").
Proof.
  split; [split; [reflexivity|]|split].
  - exact (f_equal writes
             (proj1 (crear_pedido_escrituras Strptime.Ymd "o-1" Ejemplo.t0
                       Caso.solicitud_ana Ejemplo.db0
                       (Caso.db_con Caso.pedido_ana) (Return Caso.pedido_ana)
                       eq_refl))).
  - apply (proj1 (proj2
             (crear_pedido_escrituras Strptime.Ymd "o-4" Ejemplo.t0
                Caso.solicitud_sin_producto Ejemplo.db0 Ejemplo.db0
                (Raise (HTTPException 404 "Producto p-nada no encontrado"))
                eq_refl))).
    exists (Ejemplo.item "p-nada" 1). split; [right; left|]; reflexivity.
  - apply (proj2 (proj2
             (crear_pedido_escrituras Strptime.Ymd "o-4" Ejemplo.t0
                Caso.solicitud_sin_producto Ejemplo.db0 Ejemplo.db0
                (Raise (HTTPException 404 "Producto p-nada no encontrado"))
                eq_refl))
             Ejemplo.ana Caso.entrega
             [Ejemplo.item "p-pan" 1] (Ejemplo.item "p-nada" 1)
             [Ejemplo.item "p-otro" 2]);
      try reflexivity.
    exact valorable_pan_1.
Defined.

(** The request has no lines, and yet the order collection has changed: the
    order without lines has been appended. *)
Lemma crear_pedido_sin_lineas_persistido :
  ~ (PedidoCreate.productos Caso.solicitud_vacia = [] ->
     pedidos (fst (Ejemplo.crear "o-3" Caso.solicitud_vacia Ejemplo.db0))
     = pedidos Ejemplo.db0).
Proof.
  intros H. specialize (H eq_refl). vm_compute in H. discriminate H.
Qed.

Lemma crear_pedido_lineas_vacias_witness :
  Ejemplo.crear "o-3" Caso.solicitud_vacia Ejemplo.db0
  = (Caso.db_con Caso.pedido_vacio, Return Caso.pedido_vacio)
  /\ List.length (Pedido.productos Caso.pedido_vacio)
     = List.length (PedidoCreate.productos Caso.solicitud_vacia)
  /\ (exists db' p,
        Ejemplo.crear "o-3" Caso.solicitud_vacia Ejemplo.db0 = (db', Return p)
        /\ pedidos db' = pedidos Ejemplo.db0 ++ [p]
        /\ Pedido.productos p = []
        /\ Pedido.total p = 0%float).
Proof.
  split; [reflexivity|]. split.
  - apply (proj1 (crear_pedido_lineas_vacias Strptime.Ymd "o-3" Ejemplo.t0
                    Caso.solicitud_vacia Ejemplo.db0)
             (Caso.db_con Caso.pedido_vacio)).
    reflexivity.
  - apply (proj2 (crear_pedido_lineas_vacias Strptime.Ymd "o-3" Ejemplo.t0
                    Caso.solicitud_vacia Ejemplo.db0)
             Ejemplo.ana Caso.entrega);
      reflexivity.
Defined.


(** What the call with the quantity [2 ^ 63] does: the conversion gives
    [9223372036854775808.0], and the call raises with the store as it was. *)
Lemma crear_pedido_nueve_bytes_sin_escritura :
  float_of_int (2 ^ 63) = Return 9223372036854775808%float
  /\ Ejemplo.crear "o-5" Caso.solicitud_nueve_bytes Ejemplo.db0
     = (Ejemplo.db0, Raise OverflowError).
Proof. split; reflexivity. Qed.

(** The quantity [2 ^ 1024] does not even convert to a float: the
    multiplication raises [OverflowError], and nothing is written. *)
Lemma crear_pedido_cantidad_enorme :
  float_of_int (2 ^ 1024) = Raise OverflowError
  /\ Ejemplo.crear "o-5" Caso.solicitud_enorme Ejemplo.db0
     = (Ejemplo.db0, Raise OverflowError).
Proof. split; reflexivity. Qed.


(** The two ends of the 8-byte range are accepted. *)
Lemma crear_pedido_ocho_bytes :
  exists db' p,
    Ejemplo.crear "o-6" Caso.solicitud_ocho_bytes Ejemplo.db0 = (db', Return p)
    /\ pedidos db' = [p]
    /\ List.map DetalleProducto.cantidad (Pedido.productos p)
       = [2 ^ 63 - 1; - 2 ^ 63].
Proof.
  eexists. eexists. split; [vm_compute; reflexivity|].
  split; reflexivity.
Qed.

(** ** The update endpoints, as equations *)

Lemma actualizar_estado_pedido_eq (pedido_id estado : string) (db : DB) :
  actualizar_estado_pedido pedido_id estado db
  = match Collection.find_one Pedido.id pedido_id (pedidos db) with
    | None => (db, Raise pedido_no_encontrado)
    | Some _ =>
        if str_in estado estados_validos
        then ({| clientes := clientes db;
                 productos := productos db;
                 pedidos := Collection.update_one Pedido.id pedido_id
                              (Pedido.set_estado estado) (pedidos db);
                 writes := writes db ++ [(Pedidos, Update_one)] |},
              Return "Estado actualizado exitosamente")
        else (db, Raise estado_no_valido)
    end.
Proof.
  unfold actualizar_estado_pedido, bind, pedidos_find_one.
  destruct (Collection.find_one Pedido.id pedido_id (pedidos db));
    [|reflexivity].
  destruct (str_in estado estados_validos); reflexivity.
Qed.

Lemma actualizar_cliente_eq (cliente_id : string) (cliente : ClienteCreate.t)
    (db : DB) :
  actualizar_cliente cliente_id cliente db
  = match Collection.find_one Cliente.id cliente_id (clientes db) with
    | None => (db, Raise cliente_no_encontrado)
    | Some _ =>
        let db' :=
          {| clientes := Collection.update_one Cliente.id cliente_id
                           (set_cliente cliente) (clientes db);
             productos := productos db;
             pedidos := pedidos db;
             writes := writes db ++ [(Clientes, Update_one)] |} in
        match Collection.find_one Cliente.id cliente_id (clientes db') with
        | Some c => (db', Return c)
        | None => (db', Raise TypeError)
        end
    end.
Proof.
  unfold actualizar_cliente, bind, clientes_find_one.
  destruct (Collection.find_one Cliente.id cliente_id (clientes db));
    [|reflexivity].
  simpl.
  destruct (Collection.find_one Cliente.id cliente_id _); reflexivity.
Qed.

Lemma actualizar_producto_eq (producto_id : string) (producto : ProductoCreate.t)
    (db : DB) :
  actualizar_producto producto_id producto db
  = match Collection.find_one Producto.id producto_id (productos db) with
    | None => (db, Raise producto_no_encontrado)
    | Some _ =>
        let db' :=
          {| clientes := clientes db;
             productos := Collection.update_one Producto.id producto_id
                            (set_producto producto) (productos db);
             pedidos := pedidos db;
             writes := writes db ++ [(Productos, Update_one)] |} in
        match Collection.find_one Producto.id producto_id (productos db') with
        | Some p => (db', Return p)
        | None => (db', Raise TypeError)
        end
    end.
Proof.
  unfold actualizar_producto, bind, productos_find_one.
  destruct (Collection.find_one Producto.id producto_id (productos db));
    [|reflexivity].
  simpl.
  destruct (Collection.find_one Producto.id producto_id _); reflexivity.
Qed.

(** ** Customer update *)

(** C8. [actualizar_cliente] on the id of a stored customer returns the
    customer with the supplied name, phone, email and address and with the
    identifier and the registration timestamp it had; that record takes the
    place of the old one in the collection and every other document of the
    store stays as it was.  On an id that the collection does not hold it
    raises the 404 and the store is unchanged. *)
Theorem actualizar_cliente_marco
    (db : DB) (cliente_id : string) (cliente : ClienteCreate.t) :
  (forall viejo,
     Collection.find_one Cliente.id cliente_id (clientes db) = Some viejo ->
     exists db' nuevo l1 l2,
       actualizar_cliente cliente_id cliente db = (db', Return nuevo)
       /\ clientes db = l1 ++ viejo :: l2
       /\ clientes db' = l1 ++ nuevo :: l2
       /\ Cliente.nombre nuevo = ClienteCreate.nombre cliente
       /\ Cliente.telefono nuevo = ClienteCreate.telefono cliente
       /\ Cliente.email nuevo = ClienteCreate.email cliente
       /\ Cliente.direccion nuevo = ClienteCreate.direccion cliente
       /\ Cliente.id nuevo = Cliente.id viejo
       /\ Cliente.fecha_registro nuevo = Cliente.fecha_registro viejo
       /\ productos db' = productos db
       /\ pedidos db' = pedidos db)
  /\ (Collection.find_one Cliente.id cliente_id (clientes db) = None ->
      actualizar_cliente cliente_id cliente db
      = (db, Raise (HTTPException 404 "Cliente no encontrado"))).
Proof.
  rewrite actualizar_cliente_eq. split.
  - intros viejo Hv. rewrite Hv.
    destruct (find_one_split _ _ _ _ Hv) as (l1 & l2 & Hl & Hk & Hn).
    cbv zeta. simpl clientes. rewrite Hl.
    rewrite (update_one_middle Cliente.id _ (set_cliente cliente) l1 l2 viejo Hk Hn).
    rewrite (find_one_middle Cliente.id cliente_id l1 l2
               (set_cliente cliente viejo) Hk Hn).
    exists {| clientes := l1 ++ set_cliente cliente viejo :: l2;
              productos := productos db;
              pedidos := pedidos db;
              writes := writes db ++ [(Clientes, Update_one)] |},
           (set_cliente cliente viejo), l1, l2.
    simpl. repeat split; reflexivity.
  - intros ->. reflexivity.
Qed.

Lemma actualizar_cliente_marco_witness :
  Collection.find_one Cliente.id "c-ana" (clientes Ejemplo.db0)
  = Some Ejemplo.ana
  /\ (exists db' nuevo l1 l2,
        actualizar_cliente "c-ana" Caso.ana_nueva Ejemplo.db0
        = (db', Return nuevo)
        /\ clientes Ejemplo.db0 = l1 ++ Ejemplo.ana :: l2
        /\ clientes db' = l1 ++ nuevo :: l2
        /\ Cliente.nombre nuevo = ClienteCreate.nombre Caso.ana_nueva
        /\ Cliente.telefono nuevo = ClienteCreate.telefono Caso.ana_nueva
        /\ Cliente.email nuevo = ClienteCreate.email Caso.ana_nueva
        /\ Cliente.direccion nuevo = ClienteCreate.direccion Caso.ana_nueva
        /\ Cliente.id nuevo = Cliente.id Ejemplo.ana
        /\ Cliente.fecha_registro nuevo = Cliente.fecha_registro Ejemplo.ana
        /\ productos db' = productos Ejemplo.db0
        /\ pedidos db' = pedidos Ejemplo.db0)
  /\ actualizar_cliente "c-nadie" Caso.ana_nueva Ejemplo.db0
     = (Ejemplo.db0, Raise (HTTPException 404 "Cliente no encontrado")).
Proof.
  split; [reflexivity|]. split.
  - apply (proj1 (actualizar_cliente_marco Ejemplo.db0 "c-ana" Caso.ana_nueva)).
    reflexivity.
  - apply (proj2 (actualizar_cliente_marco Ejemplo.db0 "c-nadie" Caso.ana_nueva)).
    reflexivity.
Defined.

(** ** Status update *)

(** C9. In the status update the existence of the order is checked before
    the validity of the status: for an order id that the collection does not
    hold, [actualizar_estado_pedido] raises the 404 "Pedido no encontrado"
    whatever the supplied status is, recognized or not, and never the 400
    "Estado no válido"; the store is left as it was. *)
Theorem actualizar_estado_pedido_ausente
    (db : DB) (pedido_id estado : string)
    (Hno : Collection.find_one Pedido.id pedido_id (pedidos db) = None) :
  actualizar_estado_pedido pedido_id estado db
  = (db, Raise (HTTPException 404 "Pedido no encontrado"))
  /\ HTTPException 404 "Pedido no encontrado" <> estado_no_valido.
Proof.
  split; [|discriminate].
  unfold actualizar_estado_pedido. run. rewrite Hno. reflexivity.
Qed.

Lemma actualizar_estado_pedido_ausente_witness :
  Collection.find_one Pedido.id "o9" (pedidos Ejemplo.db_cinco) = None
  /\ actualizar_estado_pedido "o9" "no_es_un_estado" Ejemplo.db_cinco
     = (Ejemplo.db_cinco, Raise (HTTPException 404 "Pedido no encontrado"))
  /\ actualizar_estado_pedido "o9" "completado" Ejemplo.db_cinco
     = (Ejemplo.db_cinco, Raise (HTTPException 404 "Pedido no encontrado")).
Proof.
  split; [reflexivity|].
  split.
  - apply (actualizar_estado_pedido_ausente
             Ejemplo.db_cinco "o9" "no_es_un_estado"). reflexivity.
  - apply (actualizar_estado_pedido_ausente
             Ejemplo.db_cinco "o9" "completado"). reflexivity.
Defined.

(** C5. For a stored order and one of the four recognized statuses,
    [actualizar_estado_pedido] returns its acknowledgement and the stored
    record is replaced by one with the new status and every other field as
    it was; the other orders, the customers and the products are unchanged.
    For any other status it raises the 400 "Estado no válido" and the store,
    with the order and its status, is unchanged. *)
Theorem actualizar_estado_pedido_marco
    (db : DB) (pedido_id estado : string) (p : Pedido.t)
    (Hp : Collection.find_one Pedido.id pedido_id (pedidos db) = Some p) :
  (In estado ["pendiente"; "en_proceso"; "completado"; "cancelado"]%string ->
   exists db' p' l1 l2,
     actualizar_estado_pedido pedido_id estado db
     = (db', Return "Estado actualizado exitosamente"%string)
     /\ pedidos db = l1 ++ p :: l2
     /\ pedidos db' = l1 ++ p' :: l2
     /\ Collection.find_one Pedido.id pedido_id (pedidos db') = Some p'
     /\ Pedido.estado p' = estado
     /\ Pedido.id p' = Pedido.id p
     /\ Pedido.cliente_id p' = Pedido.cliente_id p
     /\ Pedido.nombre_cliente p' = Pedido.nombre_cliente p
     /\ Pedido.fecha_pedido p' = Pedido.fecha_pedido p
     /\ Pedido.fecha_entrega_estimada p' = Pedido.fecha_entrega_estimada p
     /\ Pedido.productos p' = Pedido.productos p
     /\ Pedido.total p' = Pedido.total p
     /\ clientes db' = clientes db
     /\ productos db' = productos db)
  /\ (~ In estado ["pendiente"; "en_proceso"; "completado"; "cancelado"]%string ->
      actualizar_estado_pedido pedido_id estado db
      = (db, Raise (HTTPException 400 "Estado no válido"))
      /\ Collection.find_one Pedido.id pedido_id (pedidos db) = Some p).
Proof.
  rewrite actualizar_estado_pedido_eq, Hp.
  fold estados_validos. split.
  - intros Hin. rewrite (proj2 (str_in_In _ _) Hin).
    destruct (find_one_split _ _ _ _ Hp) as (l1 & l2 & Hl & Hk & Hn).
    rewrite Hl.
    rewrite (update_one_middle Pedido.id _ (Pedido.set_estado estado)
               l1 l2 p Hk Hn).
    exists {| clientes := clientes db;
              productos := productos db;
              pedidos := l1 ++ Pedido.set_estado estado p :: l2;
              writes := writes db ++ [(Pedidos, Update_one)] |},
           (Pedido.set_estado estado p), l1, l2.
    simpl. repeat split; try reflexivity.
    exact (find_one_middle Pedido.id pedido_id l1 l2
             (Pedido.set_estado estado p) Hk Hn).
  - intros Hno.
    destruct (str_in estado estados_validos) eqn:E.
    + exfalso. apply Hno. apply str_in_In. exact E.
    + split; reflexivity.
Qed.

Lemma actualizar_estado_pedido_marco_witness :
  Collection.find_one Pedido.id "o1" (pedidos Ejemplo.db_cinco)
  = Some (Ejemplo.pedido_con "o1" "pendiente" 7)
  /\ (exists db' p' l1 l2,
        actualizar_estado_pedido "o1" "cancelado" Ejemplo.db_cinco
        = (db', Return "Estado actualizado exitosamente"%string)
        /\ pedidos Ejemplo.db_cinco
           = l1 ++ Ejemplo.pedido_con "o1" "pendiente" 7 :: l2
        /\ pedidos db' = l1 ++ p' :: l2
        /\ Collection.find_one Pedido.id "o1" (pedidos db') = Some p'
        /\ Pedido.estado p' = "cancelado"%string
        /\ Pedido.id p' = "o1"%string
        /\ Pedido.cliente_id p' = "c-ana"%string
        /\ Pedido.nombre_cliente p' = "Ana"%string
        /\ Pedido.fecha_pedido p' = Ejemplo.t0
        /\ Pedido.fecha_entrega_estimada p' = Ejemplo.t0
        /\ Pedido.productos p' = []
        /\ Pedido.total p' = 7%float
        /\ clientes db' = clientes Ejemplo.db_cinco
        /\ productos db' = productos Ejemplo.db_cinco)
  /\ actualizar_estado_pedido "o1" "entregado" Ejemplo.db_cinco
     = (Ejemplo.db_cinco, Raise (HTTPException 400 "Estado no válido"))
  /\ actualizar_estado_pedido "o1" "cancelado" Ejemplo.db_cinco
     = (Caso.db_cinco_o1 "cancelado",
        Return "Estado actualizado exitosamente"%string).
Proof.
  split; [reflexivity|]. split; [|split].
  - apply (proj1 (actualizar_estado_pedido_marco Ejemplo.db_cinco "o1"
                    "cancelado" (Ejemplo.pedido_con "o1" "pendiente" 7)
                    eq_refl)).
    simpl. auto.
  - apply (proj2 (actualizar_estado_pedido_marco Ejemplo.db_cinco "o1"
                    "entregado" (Ejemplo.pedido_con "o1" "pendiente" 7)
                    eq_refl)).
    simpl. intros [H|[H|[H|[H|[]]]]]; discriminate H.
  - reflexivity.
Defined.

(** ** Orders are snapshots *)

Lemma aplicar_pedidos (db : DB) (a : actualizacion) :
  pedidos (aplicar db a) = pedidos db.
Proof.
  destruct a as [producto_id producto | cliente_id cliente]; simpl.
  - rewrite actualizar_producto_eq.
    destruct (Collection.find_one Producto.id producto_id (productos db));
      [|reflexivity].
    cbv zeta. destruct (Collection.find_one Producto.id producto_id _);
      reflexivity.
  - rewrite actualizar_cliente_eq.
    destruct (Collection.find_one Cliente.id cliente_id (clientes db));
      [|reflexivity].
    cbv zeta. destruct (Collection.find_one Cliente.id cliente_id _);
      reflexivity.
Qed.

Lemma aplicar_todas_pedidos (acts : list actualizacion) :
  forall db, pedidos (aplicar_todas acts db) = pedidos db.
Proof.
  unfold aplicar_todas.
  induction acts as [|a acts IH]; intros db; simpl; [reflexivity|].
  rewrite IH. apply aplicar_pedidos.
Qed.

Lemma obtener_pedido_eq (pedido_id : string) (db : DB) :
  obtener_pedido pedido_id db
  = (db, match Collection.find_one Pedido.id pedido_id (pedidos db) with
         | Some p => Return p
         | None => Raise pedido_no_encontrado
         end).
Proof.
  unfold obtener_pedido, bind, pedidos_find_one.
  destruct (Collection.find_one Pedido.id pedido_id (pedidos db)); reflexivity.
Qed.

(** C6. Let [crear_pedido] return the order [p] under an identifier that no
    stored order had.  After any sequence of calls of [actualizar_producto]
    and [actualizar_cliente], on any ids and with any data, the order
    collection is the one the composition left, and [obtener_pedido] on the
    id of [p] returns [p] itself: the lines with the product names, unit
    prices and subtotals read from the store at composition time, and the
    customer name read at composition time. *)
Theorem pedido_instantanea
    (strptime_Ymd : string -> option datetime) (uuid4 : string)
    (utcnow : datetime) (pedido : PedidoCreate.t) (db db1 : DB) (p : Pedido.t)
    (acts : list actualizacion)
    (Hok : crear_pedido strptime_Ymd uuid4 utcnow pedido db = (db1, Return p))
    (Hnuevo : Collection.find_one Pedido.id uuid4 (pedidos db) = None) :
  pedidos (aplicar_todas acts db1) = pedidos db1
  /\ obtener_pedido (Pedido.id p) (aplicar_todas acts db1)
     = (aplicar_todas acts db1, Return p)
  /\ Forall2 (linea_correcta (productos db))
             (PedidoCreate.productos pedido) (Pedido.productos p)
  /\ (exists cliente,
        Collection.find_one Cliente.id (PedidoCreate.cliente_id pedido)
          (clientes db) = Some cliente
        /\ Pedido.nombre_cliente p = Cliente.nombre cliente).
Proof.
  destruct (crear_pedido_return _ _ _ _ _ _ _ Hok)
    as (cliente & fecha & ds & Hc & _ & Hl & Hp & Hdb).
  split; [apply aplicar_todas_pedidos|]. split; [|split].
  - rewrite obtener_pedido_eq, aplicar_todas_pedidos.
    rewrite Hdb. simpl pedidos.
    assert (Hid : Pedido.id p = uuid4) by (rewrite Hp; reflexivity).
    rewrite Hid.
    rewrite (find_one_middle Pedido.id uuid4 (pedidos db) [] p Hid Hnuevo).
    reflexivity.
  - rewrite Hp. simpl. exact (lineas_de_correctas _ _ _ Hl).
  - exists cliente. rewrite Hp. auto.
Qed.

Lemma pedido_instantanea_witness :
  (Ejemplo.crear "o-1" Caso.solicitud_ana Ejemplo.db0
   = (Caso.db_con Caso.pedido_ana, Return Caso.pedido_ana)
   /\ Collection.find_one Pedido.id "o-1" (pedidos Ejemplo.db0) = None)
  /\ option_map Producto.precio
       (Collection.find_one Producto.id "p-pan"
          (productos
             (aplicar_todas [Act_producto "p-pan" Caso.pan_caro;
                             Act_cliente "c-ana" Caso.ana_nueva]
                (Caso.db_con Caso.pedido_ana))))
     = Some 4.25%float
  /\ snd (obtener_pedido "o-1"
            (aplicar_todas [Act_producto "p-pan" Caso.pan_caro;
                            Act_cliente "c-ana" Caso.ana_nueva]
               (Caso.db_con Caso.pedido_ana)))
     = Return Caso.pedido_ana.
Proof.
  split; [split; reflexivity|]. split; [reflexivity|].
  exact (f_equal snd
           (proj1 (proj2
              (pedido_instantanea Strptime.Ymd "o-1" Ejemplo.t0
                 Caso.solicitud_ana Ejemplo.db0
                 (Caso.db_con Caso.pedido_ana) Caso.pedido_ana
                 [Act_producto "p-pan" Caso.pan_caro;
                  Act_cliente "c-ana" Caso.ana_nueva]
                 eq_refl eq_refl)))).
Defined.

(** ** Statistics *)

Lemma length_con_estado (e : string) (ps : list Pedido.t) :
  Collection.count_documents (con_estado e) ps = cuenta e ps.
Proof.
  unfold Collection.count_documents, cuenta. f_equal.
  induction ps as [|p ps IH]; simpl; [reflexivity|].
  unfold con_estado at 1.
  destruct (string_dec (Pedido.estado p) e) as [E|E].
  - rewrite (proj2 (String.eqb_eq _ _) E). simpl. rewrite IH. reflexivity.
  - rewrite (proj2 (String.eqb_neq _ _) E). exact IH.
Qed.

Lemma count_todos {A} (xs : list A) :
  Collection.count_documents todos xs = Z.of_nat (List.length xs).
Proof.
  unfold Collection.count_documents. f_equal.
  induction xs as [|x xs IH]; simpl; [reflexivity | rewrite IH; reflexivity].
Qed.

Lemma completados_sin (l1 l2 : list Pedido.t) (o : Pedido.t) :
  Pedido.estado o <> "completado"%string ->
  completados (l1 ++ o :: l2) = completados (l1 ++ l2).
Proof.
  intros Hno. unfold completados. rewrite !List.filter_app. simpl.
  unfold con_estado at 2. rewrite (proj2 (String.eqb_neq _ _) Hno).
  reflexivity.
Qed.

Lemma obtener_estadisticas_eq (db : DB) :
  exists ingresos,
    Py.sum (List.map Pedido.total
              (List.firstn 1000 (completados (pedidos db))))
    = Return ingresos
    /\ obtener_estadisticas db
       = (db, Return
                {| total_clientes := Z.of_nat (List.length (clientes db));
                   total_productos := Z.of_nat (List.length (productos db));
                   total_pedidos := Z.of_nat (List.length (pedidos db));
                   pedidos_pendientes := cuenta "pendiente" (pedidos db);
                   pedidos_en_proceso := cuenta "en_proceso" (pedidos db);
                   pedidos_completados := cuenta "completado" (pedidos db);
                   ingresos_totales := ingresos |}).
Proof.
  unfold obtener_estadisticas, Collection.find_to_list.
  fold (completados (pedidos db)).
  destruct (sum_from_ok
              (List.map Pedido.total
                 (List.firstn 1000 (completados (pedidos db))))
              (PyInt 0) 0%float float_of_int_0) as (n & Hn & _).
  exists n. unfold Py.sum. rewrite Hn. split; [reflexivity|].
  rewrite !count_todos, !length_con_estado. reflexivity.
Qed.

(** What the report is on every store.  [obtener_estadisticas] always
    returns, and leaves the store as it was.  The three totals are the
    sizes of the collections and the three status counts are the numbers of
    orders whose status is exactly that status.  [ingresos_totales] is the
    sum of [total] over the first 1000 orders, in collection order, whose
    status is exactly "completado"; it is the sum over all of them when
    they are at most 1000.  An order in any other status contributes
    nothing: taking it out of the collection leaves the revenue as it was.
    On the five orders of the example the report is 5, 2, 1, 2 and 15. *)
Theorem obtener_estadisticas_correcta (db : DB) :
  (exists s,
     obtener_estadisticas db = (db, Return s)
     /\ total_clientes s = Z.of_nat (List.length (clientes db))
     /\ total_productos s = Z.of_nat (List.length (productos db))
     /\ total_pedidos s = Z.of_nat (List.length (pedidos db))
     /\ pedidos_pendientes s = cuenta "pendiente" (pedidos db)
     /\ pedidos_en_proceso s = cuenta "en_proceso" (pedidos db)
     /\ pedidos_completados s = cuenta "completado" (pedidos db)
     /\ Py.sum (List.map Pedido.total
                  (List.firstn 1000 (completados (pedidos db))))
        = Return (ingresos_totales s)
     /\ ((List.length (completados (pedidos db)) <= 1000)%nat ->
         Py.sum (List.map Pedido.total (completados (pedidos db)))
         = Return (ingresos_totales s))
     /\ (forall l1 o l2 db2,
           pedidos db = l1 ++ o :: l2 ->
           Pedido.estado o <> "completado"%string ->
           pedidos db2 = l1 ++ l2 ->
           exists s2,
             obtener_estadisticas db2 = (db2, Return s2)
             /\ ingresos_totales s2 = ingresos_totales s))
  /\ obtener_estadisticas Ejemplo.db_cinco
     = (Ejemplo.db_cinco,
        Return {| total_clientes := 1; total_productos := 2;
                  total_pedidos := 5; pedidos_pendientes := 2;
                  pedidos_en_proceso := 1; pedidos_completados := 2;
                  ingresos_totales := PyFloat 15 |}).
Proof.
  split; [|reflexivity].
  destruct (obtener_estadisticas_eq db) as (n & Hn & Hs).
  eexists. split; [exact Hs|]. simpl.
  repeat (split; [reflexivity|]).
  split; [exact Hn|]. split.
  - intros Hle. rewrite List.firstn_all2 in Hn by exact Hle. exact Hn.
  - intros l1 o l2 db2 Hl Ho Hl2.
    destruct (obtener_estadisticas_eq db2) as (n2 & Hn2 & Hs2).
    eexists. split; [exact Hs2|]. simpl.
    rewrite Hl2, <- (completados_sin l1 l2 o Ho), <- Hl, Hn in Hn2.
    congruence.
Qed.

Lemma obtener_estadisticas_correcta_witness :
  (List.length (completados (pedidos Ejemplo.db_cinco)) <= 1000)%nat
  /\ Py.sum (List.map Pedido.total (completados (pedidos Ejemplo.db_cinco)))
     = Return (PyFloat 15)
  /\ (exists s2,
        obtener_estadisticas Caso.db_cinco_sin_o1
        = (Caso.db_cinco_sin_o1, Return s2)
        /\ ingresos_totales s2 = PyFloat 15).
Proof.
  assert (Hle : (List.length (completados (pedidos Ejemplo.db_cinco)) <= 1000)%nat)
    by (simpl; lia).
  split; [exact Hle|].
  destruct (proj1 (obtener_estadisticas_correcta Ejemplo.db_cinco))
    as (s & Hs & _ & _ & _ & _ & _ & _ & _ & Hall & Hframe).
  assert (Hi : ingresos_totales s = PyFloat 15).
  { apply (f_equal snd) in Hs. vm_compute in Hs.
    injection Hs as <-. reflexivity. }
  split.
  - rewrite (Hall Hle), Hi. reflexivity.
  - destruct (Hframe [] (Ejemplo.pedido_con "o1" "pendiente" 7)
                (pedidos Caso.db_cinco_sin_o1) Caso.db_cinco_sin_o1)
      as (s2 & Hs2 & Hi2);
      [reflexivity | discriminate | reflexivity |].
    exists s2. split; [exact Hs2 | congruence].
Defined.

(** The identifiers of the orders of the season are pairwise distinct. *)
Lemma id_pedido_inj : Injective Temporada.id_pedido.
Proof.
  intros n m H. unfold Temporada.id_pedido in H. simpl in H.
  injection H as H.
  apply Unsigned.to_uint_inj.
  apply (f_equal NilEmpty.uint_of_string) in H.
  rewrite !NilEmpty.usu in H. congruence.
Qed.

Lemma ids_de_la_temporada :
  List.map Pedido.id (pedidos Temporada.db_mil_uno)
  = List.map Temporada.id_pedido (List.seq 1 1001).
Proof. vm_compute. reflexivity. Qed.

(** C4. A store on which the report is not what the claim says.  The store
    is the one the API builds from the empty store by composing and
    completing 1001 orders of total 1, each under its own identifier.  All
    1001 orders are completed and the sum of their totals is 1001.0; the
    report counts 1001 completed orders, as [count_documents] does, and
    gives 1000.0 as [ingresos_totales], the sum over the 1000 documents
    that [to_list(1000)] returns. *)
Theorem obtener_estadisticas_mil_uno_completados :
  NoDup (List.map Pedido.id (pedidos Temporada.db_mil_uno))
  /\ List.map Pedido.estado (pedidos Temporada.db_mil_uno)
     = List.repeat "completado"%string 1001
  /\ List.map Pedido.total (pedidos Temporada.db_mil_uno)
     = List.repeat 1%float 1001
  /\ Py.sum (List.map Pedido.total
               (completados (pedidos Temporada.db_mil_uno)))
     = Return (PyFloat 1001)
  /\ obtener_estadisticas Temporada.db_mil_uno
     = (Temporada.db_mil_uno,
        Return {| total_clientes := 1; total_productos := 1;
                  total_pedidos := 1001; pedidos_pendientes := 0;
                  pedidos_en_proceso := 0; pedidos_completados := 1001;
                  ingresos_totales := PyFloat 1000 |}).
Proof.
  split.
  { rewrite ids_de_la_temporada.
    exact (Injective_map_NoDup id_pedido_inj (List.seq_NoDup 1001 1)). }
  split; [vm_compute; reflexivity|].
  split; [vm_compute; reflexivity|].
  split; vm_compute; reflexivity.
Qed.


(** * Properties of the whole API *)

(** ** More facts about the collections *)

Section CollectionFacts2.
Context {A : Type} (key : A -> string).

Lemma find_one_None_iff (k : string) (docs : list A) :
  Collection.find_one key k docs = None <-> ~ In k (List.map key docs).
Proof.
  unfold Collection.find_one.
  induction docs as [|d docs IH]; simpl.
  - split; [intros _ []|reflexivity].
  - destruct (String.eqb (key d) k) eqn:E.
    + apply String.eqb_eq in E. split; [discriminate|].
      intros H. exfalso. apply H. left. exact E.
    + apply String.eqb_neq in E. rewrite IH. split.
      * intros H [H1|H1]; [exact (E H1) | exact (H H1)].
      * intros H H1. apply H. right. exact H1.
Qed.

Lemma find_one_Some_In (k : string) (docs : list A) (d : A) :
  Collection.find_one key k docs = Some d -> In d docs /\ key d = k.
Proof.
  intros H. destruct (find_one_split key k docs d H) as (l1 & l2 & -> & Hk & _).
  split; [apply in_or_app; right; left; reflexivity | exact Hk].
Qed.

Lemma delete_one_absent (k : string) (docs : list A) :
  Collection.find_one key k docs = None -> delete_one key k docs = docs.
Proof.
  unfold Collection.find_one.
  induction docs as [|d docs IH]; simpl; [reflexivity|].
  destruct (String.eqb (key d) k); [discriminate|].
  intros H. rewrite (IH H). reflexivity.
Qed.

Lemma delete_one_middle (k : string) (l1 l2 : list A) (d : A) :
  key d = k ->
  Collection.find_one key k l1 = None ->
  delete_one key k (l1 ++ d :: l2) = l1 ++ l2.
Proof.
  intros Hk. unfold Collection.find_one.
  induction l1 as [|x l1 IH]; simpl.
  - intros _. rewrite (proj2 (String.eqb_eq _ _) Hk). reflexivity.
  - destruct (String.eqb (key x) k); [discriminate|].
    intros H. rewrite (IH H). reflexivity.
Qed.

Lemma find_one_update_one (k : string) (set : A -> A) (docs : list A) :
  (forall d, key (set d) = key d) ->
  Collection.find_one key k (Collection.update_one key k set docs)
  = option_map set (Collection.find_one key k docs).
Proof.
  intros Hset. unfold Collection.find_one.
  induction docs as [|d docs IH]; simpl; [reflexivity|].
  destruct (String.eqb (key d) k) eqn:E; simpl.
  - rewrite Hset, E. reflexivity.
  - rewrite E. exact IH.
Qed.

Lemma In_map_key_delete_one (k x : string) (docs : list A) :
  In x (List.map key (delete_one key k docs)) -> In x (List.map key docs).
Proof.
  induction docs as [|d docs IH]; simpl; [auto|].
  destruct (String.eqb (key d) k); simpl.
  - auto.
  - intros [H|H]; [left; exact H | right; exact (IH H)].
Qed.

Lemma NoDup_delete_one (k : string) (docs : list A) :
  NoDup (List.map key docs) -> NoDup (List.map key (delete_one key k docs)).
Proof.
  induction docs as [|d docs IH]; simpl; [auto|].
  intros H. inversion H as [|? ? Hnot Hrest]; subst.
  destruct (String.eqb (key d) k); [exact Hrest|].
  simpl. constructor; [|exact (IH Hrest)].
  intros Hin. apply Hnot. exact (In_map_key_delete_one _ _ _ Hin).
Qed.

Lemma find_one_delete_one_unico (k : string) (docs : list A) :
  NoDup (List.map key docs) ->
  Collection.find_one key k (delete_one key k docs) = None.
Proof.
  intros Hnd. apply find_one_None_iff.
  induction docs as [|d docs IH]; simpl; [auto|].
  inversion Hnd as [|? ? Hnot Hrest]; subst.
  destruct (String.eqb (key d) k) eqn:E.
  - apply String.eqb_eq in E. rewrite <- E. exact Hnot.
  - apply String.eqb_neq in E. simpl.
    intros [H|H]; [exact (E H) | exact (IH Hrest H)].
Qed.

Lemma find_one_delete_one_otro (k k' : string) (docs : list A) :
  k' <> k ->
  Collection.find_one key k' (delete_one key k docs)
  = Collection.find_one key k' docs.
Proof.
  intros Hne. unfold Collection.find_one.
  induction docs as [|d docs IH]; simpl; [reflexivity|].
  destruct (String.eqb (key d) k) eqn:E.
  - apply String.eqb_eq in E.
    destruct (String.eqb (key d) k') eqn:E'; [|reflexivity].
    apply String.eqb_eq in E'. congruence.
  - simpl. destruct (String.eqb (key d) k'); [reflexivity | exact IH].
Qed.

Lemma find_one_app_some (k : string) (l1 l2 : list A) (d : A) :
  Collection.find_one key k l1 = Some d ->
  Collection.find_one key k (l1 ++ l2) = Some d.
Proof.
  unfold Collection.find_one.
  induction l1 as [|x l1 IH]; simpl; [discriminate|].
  destruct (String.eqb (key x) k); auto.
Qed.

End CollectionFacts2.

Lemma filter_todos {A : Type} (xs : list A) : List.filter todos xs = xs.
Proof.
  induction xs as [|x xs IH]; simpl; [reflexivity | rewrite IH; reflexivity].
Qed.

(** ** The other endpoints, as equations *)

Lemma obtener_cliente_eq (cliente_id : string) (db : DB) :
  obtener_cliente cliente_id db
  = (db, match Collection.find_one Cliente.id cliente_id (clientes db) with
         | Some c => Return c
         | None => Raise cliente_no_encontrado
         end).
Proof.
  unfold obtener_cliente, bind, clientes_find_one.
  destruct (Collection.find_one Cliente.id cliente_id (clientes db)); reflexivity.
Qed.

Lemma obtener_producto_eq (producto_id : string) (db : DB) :
  obtener_producto producto_id db
  = (db, match Collection.find_one Producto.id producto_id (productos db) with
         | Some p => Return p
         | None => Raise producto_no_encontrado
         end).
Proof.
  unfold obtener_producto, bind, productos_find_one.
  destruct (Collection.find_one Producto.id producto_id (productos db));
    reflexivity.
Qed.

Lemma eliminar_cliente_eq (cliente_id : string) (db : DB) :
  eliminar_cliente cliente_id db
  = ({| clientes := delete_one Cliente.id cliente_id (clientes db);
        productos := productos db;
        pedidos := pedidos db;
        writes := writes db ++ [(Clientes, Delete_one)] |},
     match Collection.find_one Cliente.id cliente_id (clientes db) with
     | Some _ => Return "Cliente eliminado exitosamente"%string
     | None => Raise cliente_no_encontrado
     end).
Proof.
  unfold eliminar_cliente, bind, clientes_delete_one, deleted_count, log.
  destruct (Collection.find_one Cliente.id cliente_id (clientes db)); reflexivity.
Qed.

Lemma eliminar_producto_eq (producto_id : string) (db : DB) :
  eliminar_producto producto_id db
  = ({| clientes := clientes db;
        productos := delete_one Producto.id producto_id (productos db);
        pedidos := pedidos db;
        writes := writes db ++ [(Productos, Delete_one)] |},
     match Collection.find_one Producto.id producto_id (productos db) with
     | Some _ => Return "Producto eliminado exitosamente"%string
     | None => Raise producto_no_encontrado
     end).
Proof.
  unfold eliminar_producto, bind, productos_delete_one, deleted_count, log.
  destruct (Collection.find_one Producto.id producto_id (productos db));
    reflexivity.
Qed.

Lemma eliminar_pedido_eq (pedido_id : string) (db : DB) :
  eliminar_pedido pedido_id db
  = ({| clientes := clientes db;
        productos := productos db;
        pedidos := delete_one Pedido.id pedido_id (pedidos db);
        writes := writes db ++ [(Pedidos, Delete_one)] |},
     match Collection.find_one Pedido.id pedido_id (pedidos db) with
     | Some _ => Return "Pedido eliminado exitosamente"%string
     | None => Raise pedido_no_encontrado
     end).
Proof.
  unfold eliminar_pedido, bind, pedidos_delete_one, deleted_count, log.
  destruct (Collection.find_one Pedido.id pedido_id (pedidos db)); reflexivity.
Qed.

(** ** Creating and reading back *)

(** X1. [crear_cliente] under an identifier that no stored customer bears
    appends one customer with that identifier and the four supplied fields
    and touches nothing else; [obtener_cliente] on that identifier then
    returns a customer with that identifier and those four fields, and on
    the id of a customer stored before it returns that customer as
    before. *)
Theorem crear_cliente_luego_obtener
    (uuid4 : string) (utcnow : datetime) (cliente : ClienteCreate.t) (db : DB)
    (Hnuevo : Collection.find_one Cliente.id uuid4 (clientes db) = None) :
  exists db' nuevo leido,
    crear_cliente uuid4 utcnow cliente db = (db', Return nuevo)
    /\ clientes db' = clientes db ++ [nuevo]
    /\ productos db' = productos db
    /\ pedidos db' = pedidos db
    /\ Cliente.id nuevo = uuid4
    /\ obtener_cliente uuid4 db' = (db', Return leido)
    /\ Cliente.id leido = uuid4
    /\ Cliente.nombre leido = ClienteCreate.nombre cliente
    /\ Cliente.telefono leido = ClienteCreate.telefono cliente
    /\ Cliente.email leido = ClienteCreate.email cliente
    /\ Cliente.direccion leido = ClienteCreate.direccion cliente
    /\ (forall k viejo,
          Collection.find_one Cliente.id k (clientes db) = Some viejo ->
          obtener_cliente k db' = (db', Return viejo)).
Proof.
  assert (Hf : forall c : Cliente.t,
             Cliente.id c = uuid4 ->
             Collection.find_one Cliente.id uuid4
               (Collection.insert_one c (clientes db)) = Some c).
  { intros c Hc. unfold Collection.insert_one.
    apply find_one_middle; [exact Hc | exact Hnuevo]. }
  pose (nuevo := {| Cliente.id := uuid4;
                    Cliente.nombre := ClienteCreate.nombre cliente;
                    Cliente.telefono := ClienteCreate.telefono cliente;
                    Cliente.email := ClienteCreate.email cliente;
                    Cliente.direccion := ClienteCreate.direccion cliente;
                    Cliente.fecha_registro := utcnow |}).
  exists {| clientes := Collection.insert_one nuevo (clientes db);
            productos := productos db;
            pedidos := pedidos db;
            writes := writes db ++ [(Clientes, Insert_one)] |}, nuevo, nuevo.
  split; [reflexivity|]. cbn [clientes productos pedidos].
  split; [reflexivity|]. split; [reflexivity|]. split; [reflexivity|].
  split; [reflexivity|]. split.
  - rewrite obtener_cliente_eq. cbn [clientes].
    rewrite (Hf nuevo eq_refl). reflexivity.
  - repeat (split; [reflexivity|]).
    intros k viejo Hv. rewrite obtener_cliente_eq. cbn [clientes].
    unfold Collection.insert_one.
    rewrite (find_one_app_some Cliente.id k _ _ viejo Hv). reflexivity.
Qed.

Lemma crear_cliente_luego_obtener_witness :
  Collection.find_one Cliente.id "c-luz" (clientes Ejemplo.db0) = None
  /\ exists leido,
       snd (obtener_cliente "c-luz"
              (fst (crear_cliente "c-luz" Caso.entrega Caso.ana_nueva
                      Ejemplo.db0)))
       = Return leido
       /\ Cliente.id leido = "c-luz"%string
       /\ Cliente.nombre leido = "Ana Maria"%string
       /\ Cliente.telefono leido = "600999888"%string.
Proof.
  split; [reflexivity|].
  destruct (crear_cliente_luego_obtener "c-luz" Caso.entrega Caso.ana_nueva
              Ejemplo.db0 eq_refl)
    as (db' & nuevo & leido & Hc & _ & _ & _ & _ & Ho & Hid & Hn & Ht & _).
  exists leido. rewrite Hc. cbn [fst]. rewrite Ho.
  repeat split; assumption.
Defined.

(** X2. [crear_producto] under an identifier that no stored product bears
    appends one product with that identifier and the five supplied fields
    and touches nothing else; [obtener_producto] on that identifier then
    returns the new product, and on the id of a product stored before it
    returns that product as before. *)
Theorem crear_producto_luego_obtener
    (uuid4 : string) (producto : ProductoCreate.t) (db : DB)
    (Hnuevo : Collection.find_one Producto.id uuid4 (productos db) = None) :
  exists db' nuevo,
    crear_producto uuid4 producto db = (db', Return nuevo)
    /\ productos db' = productos db ++ [nuevo]
    /\ clientes db' = clientes db
    /\ pedidos db' = pedidos db
    /\ Producto.id nuevo = uuid4
    /\ Producto.nombre nuevo = ProductoCreate.nombre producto
    /\ Producto.precio nuevo = ProductoCreate.precio producto
    /\ Producto.categoria nuevo = ProductoCreate.categoria producto
    /\ Producto.descripcion nuevo = ProductoCreate.descripcion producto
    /\ Producto.disponible nuevo = ProductoCreate.disponible producto
    /\ obtener_producto uuid4 db' = (db', Return nuevo)
    /\ (forall k viejo,
          Collection.find_one Producto.id k (productos db) = Some viejo ->
          obtener_producto k db' = (db', Return viejo)).
Proof.
  eexists. eexists. split; [reflexivity|]. simpl.
  repeat (split; [reflexivity|]). split.
  - rewrite obtener_producto_eq. simpl. unfold Collection.insert_one.
    erewrite find_one_middle; [reflexivity | reflexivity | exact Hnuevo].
  - intros k viejo Hv. rewrite obtener_producto_eq. simpl.
    unfold Collection.insert_one.
    rewrite (find_one_app_some Producto.id k _ _ viejo Hv). reflexivity.
Qed.

Lemma crear_producto_luego_obtener_witness :
  Collection.find_one Producto.id "p-nuevo" (productos Ejemplo.db0) = None
  /\ snd (crear_producto "p-nuevo" Caso.pan_caro Ejemplo.db0)
     = snd (obtener_producto "p-nuevo"
              (fst (crear_producto "p-nuevo" Caso.pan_caro Ejemplo.db0)))
  /\ snd (obtener_producto "p-pan"
            (fst (crear_producto "p-nuevo" Caso.pan_caro Ejemplo.db0)))
     = Return Ejemplo.pan.
Proof.
  split; [reflexivity|].
  destruct (crear_producto_luego_obtener "p-nuevo" Caso.pan_caro Ejemplo.db0
              eq_refl)
    as (db' & nuevo & Hc & _ & _ & _ & _ & _ & _ & _ & _ & _ & Ho & Hv).
  rewrite Hc. simpl. rewrite Ho, (Hv "p-pan"%string Ejemplo.pan eq_refl).
  split; reflexivity.
Defined.

(** ** Deleting *)

(** X3. [eliminar_cliente] on the id of a stored customer removes the first
    customer that bears the id and no other document: the customers before
    and after it, the products and the orders, also the orders placed by
    that customer, stay as they were.  On an id that no customer bears it
    raises the 404 and the three collections are unchanged. *)
Theorem eliminar_cliente_marco (cliente_id : string) (db : DB) :
  (forall d,
     Collection.find_one Cliente.id cliente_id (clientes db) = Some d ->
     exists db' l1 l2,
       eliminar_cliente cliente_id db
       = (db', Return "Cliente eliminado exitosamente"%string)
       /\ clientes db = l1 ++ d :: l2
       /\ Collection.find_one Cliente.id cliente_id l1 = None
       /\ clientes db' = l1 ++ l2
       /\ productos db' = productos db
       /\ pedidos db' = pedidos db)
  /\ (Collection.find_one Cliente.id cliente_id (clientes db) = None ->
      exists db',
        eliminar_cliente cliente_id db
        = (db', Raise (HTTPException 404 "Cliente no encontrado"))
        /\ clientes db' = clientes db
        /\ productos db' = productos db
        /\ pedidos db' = pedidos db).
Proof.
  rewrite eliminar_cliente_eq. split.
  - intros d Hd. rewrite Hd.
    destruct (find_one_split _ _ _ _ Hd) as (l1 & l2 & Hl & Hk & Hn).
    eexists. exists l1, l2. split; [reflexivity|]. simpl.
    split; [exact Hl|]. split; [exact Hn|].
    split; [|split; reflexivity].
    rewrite Hl. exact (delete_one_middle Cliente.id cliente_id l1 l2 d Hk Hn).
  - intros Hno. rewrite Hno. eexists. split; [reflexivity|]. simpl.
    split; [|split; reflexivity].
    exact (delete_one_absent Cliente.id cliente_id _ Hno).
Qed.

Lemma eliminar_cliente_marco_witness :
  (Collection.find_one Cliente.id "c-ana"
     (clientes (Caso.db_con Caso.pedido_ana)) = Some Ejemplo.ana
   /\ exists db' l1 l2,
        eliminar_cliente "c-ana" (Caso.db_con Caso.pedido_ana)
        = (db', Return "Cliente eliminado exitosamente"%string)
        /\ clientes (Caso.db_con Caso.pedido_ana) = l1 ++ Ejemplo.ana :: l2
        /\ Collection.find_one Cliente.id "c-ana" l1 = None
        /\ clientes db' = l1 ++ l2
        /\ productos db' = productos (Caso.db_con Caso.pedido_ana)
        /\ pedidos db' = pedidos (Caso.db_con Caso.pedido_ana))
  /\ (Collection.find_one Cliente.id "c-nadie" (clientes Ejemplo.db0) = None
      /\ exists db',
           eliminar_cliente "c-nadie" Ejemplo.db0
           = (db', Raise (HTTPException 404 "Cliente no encontrado"))
           /\ clientes db' = clientes Ejemplo.db0
           /\ productos db' = productos Ejemplo.db0
           /\ pedidos db' = pedidos Ejemplo.db0).
Proof.
  split; (split; [reflexivity|]).
  - apply (proj1 (eliminar_cliente_marco "c-ana" (Caso.db_con Caso.pedido_ana))).
    reflexivity.
  - apply (proj2 (eliminar_cliente_marco "c-nadie" Ejemplo.db0)).
    reflexivity.
Defined.

(** X4. When no two stored orders bear the same id, [eliminar_pedido] on the
    id of a stored order returns its acknowledgement, and from then on that
    id is unknown: [obtener_pedido], [actualizar_estado_pedido] with any
    status and a second [eliminar_pedido] raise the 404; the orders under
    other ids are read as before. *)
Theorem eliminar_pedido_luego_ausente
    (pedido_id : string) (db : DB) (p : Pedido.t)
    (Hunicos : NoDup (List.map Pedido.id (pedidos db)))
    (Hp : Collection.find_one Pedido.id pedido_id (pedidos db) = Some p) :
  exists db',
    eliminar_pedido pedido_id db
    = (db', Return "Pedido eliminado exitosamente"%string)
    /\ obtener_pedido pedido_id db'
       = (db', Raise (HTTPException 404 "Pedido no encontrado"))
    /\ (forall estado,
          actualizar_estado_pedido pedido_id estado db'
          = (db', Raise (HTTPException 404 "Pedido no encontrado")))
    /\ snd (eliminar_pedido pedido_id db')
       = Raise (HTTPException 404 "Pedido no encontrado")
    /\ (forall k, k <> pedido_id ->
                  snd (obtener_pedido k db') = snd (obtener_pedido k db)).
Proof.
  rewrite eliminar_pedido_eq, Hp. eexists. split; [reflexivity|].
  pose proof (find_one_delete_one_unico Pedido.id pedido_id _ Hunicos) as Hgone.
  split; [|split; [|split]].
  - rewrite obtener_pedido_eq. simpl. rewrite Hgone. reflexivity.
  - intros estado. rewrite actualizar_estado_pedido_eq. simpl.
    rewrite Hgone. reflexivity.
  - rewrite eliminar_pedido_eq. simpl. rewrite Hgone. reflexivity.
  - intros k Hk. rewrite !obtener_pedido_eq. simpl.
    rewrite (find_one_delete_one_otro Pedido.id pedido_id k _ Hk). reflexivity.
Qed.

Lemma eliminar_pedido_luego_ausente_witness :
  NoDup (List.map Pedido.id (pedidos Ejemplo.db_cinco))
  /\ snd (obtener_pedido "o3"
            (fst (eliminar_pedido "o3" Ejemplo.db_cinco)))
     = Raise (HTTPException 404 "Pedido no encontrado").
Proof.
  assert (Hnd : NoDup (List.map Pedido.id (pedidos Ejemplo.db_cinco))).
  { simpl. repeat constructor; simpl;
      intros H; repeat (destruct H as [H|H]; [discriminate H|]); exact H. }
  split; [exact Hnd|].
  destruct (eliminar_pedido_luego_ausente "o3" Ejemplo.db_cinco
              (Ejemplo.pedido_con "o3" "en_proceso" 4) Hnd eq_refl)
    as (db' & He & Ho & _).
  rewrite He. simpl. rewrite Ho. reflexivity.
Defined.

(** ** The catalogue and the orders *)

(** X5. [actualizar_producto] on the id of a stored product returns the
    product with the five supplied fields and the identifier it had; that
    record takes the place of the old one and every other document of the
    store stays as it was.  On an id that no product bears it raises the
    404 and the store is unchanged. *)
Theorem actualizar_producto_marco
    (db : DB) (producto_id : string) (producto : ProductoCreate.t) :
  (forall viejo,
     Collection.find_one Producto.id producto_id (productos db) = Some viejo ->
     exists db' nuevo l1 l2,
       actualizar_producto producto_id producto db = (db', Return nuevo)
       /\ productos db = l1 ++ viejo :: l2
       /\ productos db' = l1 ++ nuevo :: l2
       /\ Producto.id nuevo = Producto.id viejo
       /\ Producto.nombre nuevo = ProductoCreate.nombre producto
       /\ Producto.precio nuevo = ProductoCreate.precio producto
       /\ Producto.categoria nuevo = ProductoCreate.categoria producto
       /\ Producto.descripcion nuevo = ProductoCreate.descripcion producto
       /\ Producto.disponible nuevo = ProductoCreate.disponible producto
       /\ clientes db' = clientes db
       /\ pedidos db' = pedidos db)
  /\ (Collection.find_one Producto.id producto_id (productos db) = None ->
      actualizar_producto producto_id producto db
      = (db, Raise (HTTPException 404 "Producto no encontrado"))).
Proof.
  rewrite actualizar_producto_eq. split.
  - intros viejo Hv. rewrite Hv.
    destruct (find_one_split _ _ _ _ Hv) as (l1 & l2 & Hl & Hk & Hn).
    cbv zeta. simpl productos. rewrite Hl.
    rewrite (update_one_middle Producto.id _ (set_producto producto)
               l1 l2 viejo Hk Hn).
    rewrite (find_one_middle Producto.id producto_id l1 l2
               (set_producto producto viejo) Hk Hn).
    exists {| clientes := clientes db;
              productos := l1 ++ set_producto producto viejo :: l2;
              pedidos := pedidos db;
              writes := writes db ++ [(Productos, Update_one)] |},
           (set_producto producto viejo), l1, l2.
    simpl. repeat split; reflexivity.
  - intros ->. reflexivity.
Qed.

Lemma actualizar_producto_marco_witness :
  Collection.find_one Producto.id "p-pan" (productos Ejemplo.db0)
  = Some Ejemplo.pan
  /\ (exists db' nuevo,
        actualizar_producto "p-pan" Caso.pan_caro Ejemplo.db0
        = (db', Return nuevo)
        /\ Producto.id nuevo = "p-pan"%string
        /\ Producto.precio nuevo = 4.25%float
        /\ productos db' = [nuevo; Ejemplo.tarta])
  /\ actualizar_producto "p-nada" Caso.pan_caro Ejemplo.db0
     = (Ejemplo.db0, Raise (HTTPException 404 "Producto no encontrado")).
Proof.
  split; [reflexivity|]. split.
  - destruct (proj1 (actualizar_producto_marco Ejemplo.db0 "p-pan" Caso.pan_caro)
                Ejemplo.pan eq_refl)
      as (db' & nuevo & l1 & l2 & Ha & _).
    exists db', nuevo. split; [exact Ha|].
    vm_compute in Ha. injection Ha as <- <-. repeat split; reflexivity.
  - apply (proj2 (actualizar_producto_marco Ejemplo.db0 "p-nada" Caso.pan_caro)).
    reflexivity.
Defined.

Lemma lineas_de_un_producto (catalogo : list Producto.t) (producto : Producto.t)
    (items : list Item.t) (ds : list DetalleProducto.t) :
  Collection.find_one Producto.id (Producto.id producto) catalogo
  = Some producto ->
  Forall2 (linea_correcta catalogo) items ds ->
  Forall (fun d =>
            DetalleProducto.producto_id d = Producto.id producto ->
            DetalleProducto.precio_unitario d = Producto.precio producto
            /\ DetalleProducto.nombre_producto d = Producto.nombre producto
            /\ importe d = Return (DetalleProducto.subtotal d)) ds.
Proof.
  intros Hf.
  induction 1 as [|item d items ds (Hid & _ & (q & Hq & Hpr & Hno) & Hi) _ IH];
    constructor; [|exact IH].
  intros Hd. rewrite <- Hid, Hd, Hf in Hq. injection Hq as <-. auto.
Qed.

(** X6. After [actualizar_producto] on the id of a stored product, an order
    that [crear_pedido] composes has, on every line for that product id,
    the new price as unit price, the new name, and the product of quantity
    and new price as subtotal; the orders stored before are still there,
    before the new one. *)
Theorem precio_nuevo_en_pedidos_nuevos
    (strptime_Ymd : string -> option datetime) (uuid4 : string)
    (utcnow : datetime) (producto_id : string) (nuevo : ProductoCreate.t)
    (pedido : PedidoCreate.t) (db db2 : DB) (viejo : Producto.t) (p : Pedido.t)
    (Hviejo : Collection.find_one Producto.id producto_id (productos db)
              = Some viejo)
    (Hok : crear_pedido strptime_Ymd uuid4 utcnow pedido
             (fst (actualizar_producto producto_id nuevo db))
           = (db2, Return p)) :
  Forall (fun d =>
            DetalleProducto.producto_id d = producto_id ->
            DetalleProducto.precio_unitario d = ProductoCreate.precio nuevo
            /\ DetalleProducto.nombre_producto d = ProductoCreate.nombre nuevo
            /\ importe d = Return (DetalleProducto.subtotal d))
         (Pedido.productos p)
  /\ pedidos db2 = pedidos db ++ [p].
Proof.
  destruct (crear_pedido_return _ _ _ _ _ _ _ Hok)
    as (cliente & fecha & ds & _ & _ & Hl & Hp & Hdb).
  pose proof (aplicar_pedidos db (Act_producto producto_id nuevo)) as Hped.
  simpl in Hped. split.
  - rewrite Hp. simpl.
    pose proof (lineas_de_correctas _ _ _ Hl) as Hds.
    assert (Hprod : productos (fst (actualizar_producto producto_id nuevo db))
                    = Collection.update_one Producto.id producto_id
                        (set_producto nuevo) (productos db)).
    { rewrite actualizar_producto_eq, Hviejo. cbv zeta.
      match goal with
      | |- context [match ?x with Some _ => _ | None => _ end] => destruct x
      end; reflexivity. }
    rewrite Hprod in Hds.
    assert (Hf : Collection.find_one Producto.id producto_id
                   (Collection.update_one Producto.id producto_id
                      (set_producto nuevo) (productos db))
                 = Some (set_producto nuevo viejo)).
    { rewrite find_one_update_one by reflexivity. rewrite Hviejo. reflexivity. }
    destruct (find_one_Some_In _ _ _ _ Hviejo) as (_ & Hk).
    assert (Hf' : Collection.find_one Producto.id
                    (Producto.id (set_producto nuevo viejo))
                    (Collection.update_one Producto.id producto_id
                       (set_producto nuevo) (productos db))
                  = Some (set_producto nuevo viejo))
      by (simpl; rewrite Hk; exact Hf).
    pose proof (lineas_de_un_producto _ _ _ _ Hf' Hds) as H.
    simpl in H. rewrite Hk in H. exact H.
  - rewrite Hdb. simpl. rewrite Hped. reflexivity.
Qed.

Lemma precio_nuevo_en_pedidos_nuevos_witness :
  Collection.find_one Producto.id "p-pan" (productos Ejemplo.db0)
  = Some Ejemplo.pan
  /\ List.map DetalleProducto.precio_unitario
       (match snd (Ejemplo.crear "o-7" Caso.solicitud_ana
                     (fst (actualizar_producto "p-pan" Caso.pan_caro
                             Ejemplo.db0))) with
        | Return p => Pedido.productos p
        | Raise _ => []
        end)
     = [4.25%float; 5.5%float]
  /\ Forall (fun d =>
               DetalleProducto.producto_id d = "p-pan"%string ->
               DetalleProducto.precio_unitario d
               = ProductoCreate.precio Caso.pan_caro
               /\ DetalleProducto.nombre_producto d
                  = ProductoCreate.nombre Caso.pan_caro
               /\ importe d = Return (DetalleProducto.subtotal d))
            [Caso.detalle "p-pan" "Pan de masa madre" 2 4.25 8.5;
             Caso.detalle "p-tarta" "Tarta" 1 5.5 5.5].
Proof.
  split; [reflexivity|]. split; [reflexivity|].
  apply (proj1 (precio_nuevo_en_pedidos_nuevos Strptime.Ymd "o-7" Ejemplo.t0
                  "p-pan" Caso.pan_caro Caso.solicitud_ana Ejemplo.db0
                  (fst (Ejemplo.crear "o-7" Caso.solicitud_ana
                          (fst (actualizar_producto "p-pan" Caso.pan_caro
                                  Ejemplo.db0))))
                  Ejemplo.pan
                  (Caso.pedido_nuevo "o-7"
                     [Caso.detalle "p-pan" "Pan de masa madre" 2 4.25 8.5;
                      Caso.detalle "p-tarta" "Tarta" 1 5.5 5.5] 14)
                  eq_refl eq_refl)).
Defined.

(** X7. When no two stored products bear the same id, [eliminar_producto] on
    the id of a stored product returns its acknowledgement and leaves the
    orders as they were, also those with lines on that product; from then
    on [obtener_producto] on that id raises the 404, and no request with a
    line on that id composes an order: [crear_pedido] raises and the store
    stays as it is. *)
Theorem eliminar_producto_sin_cascada
    (producto_id : string) (db : DB) (producto : Producto.t)
    (Hunicos : NoDup (List.map Producto.id (productos db)))
    (Hp : Collection.find_one Producto.id producto_id (productos db)
          = Some producto) :
  exists db',
    eliminar_producto producto_id db
    = (db', Return "Producto eliminado exitosamente"%string)
    /\ pedidos db' = pedidos db
    /\ clientes db' = clientes db
    /\ obtener_producto producto_id db'
       = (db', Raise (HTTPException 404 "Producto no encontrado"))
    /\ (forall strptime_Ymd uuid4 utcnow pedido,
          (exists item,
             In item (PedidoCreate.productos pedido)
             /\ Item.producto_id item = producto_id) ->
          exists e,
            crear_pedido strptime_Ymd uuid4 utcnow pedido db' = (db', Raise e)).
Proof.
  rewrite eliminar_producto_eq, Hp. eexists. split; [reflexivity|].
  pose proof (find_one_delete_one_unico Producto.id producto_id _ Hunicos)
    as Hgone.
  simpl. split; [reflexivity|]. split; [reflexivity|]. split.
  - rewrite obtener_producto_eq. simpl. rewrite Hgone. reflexivity.
  - intros S u n pedido (item & Hin & Hid). subst producto_id.
    rewrite crear_pedido_eq. simpl.
    destruct (Collection.find_one Cliente.id _ (clientes db));
      [|eexists; reflexivity].
    destruct (S _); [|eexists; reflexivity].
    destruct (lineas_de_ausente _ _ _ Hin Hgone) as (e & ->).
    eexists. reflexivity.
Qed.

Lemma eliminar_producto_sin_cascada_witness :
  NoDup (List.map Producto.id (productos (Caso.db_con Caso.pedido_ana)))
  /\ pedidos (fst (eliminar_producto "p-pan" (Caso.db_con Caso.pedido_ana)))
     = [Caso.pedido_ana]
  /\ exists e,
       snd (Ejemplo.crear "o-8" Caso.solicitud_ana
              (fst (eliminar_producto "p-pan" (Caso.db_con Caso.pedido_ana))))
       = Raise e.
Proof.
  assert (Hnd : NoDup (List.map Producto.id
                         (productos (Caso.db_con Caso.pedido_ana)))).
  { simpl. repeat constructor; simpl;
      intros H; repeat (destruct H as [H|H]; [discriminate H|]); exact H. }
  split; [exact Hnd|].
  destruct (eliminar_producto_sin_cascada "p-pan" (Caso.db_con Caso.pedido_ana)
              Ejemplo.pan Hnd eq_refl)
    as (db' & He & Hped & _ & _ & Hcrear).
  rewrite He. simpl. split; [exact Hped|].
  destruct (Hcrear Strptime.Ymd "o-8"%string Ejemplo.t0 Caso.solicitud_ana)
    as (e & Hr).
  - exists (Ejemplo.item "p-pan" 2). split; [left|]; reflexivity.
  - exists e. unfold Ejemplo.crear. rewrite Hr. reflexivity.
Defined.

(** ** Orders and the statistics *)

Lemma cuenta_app (e : string) (ps : list Pedido.t) (p : Pedido.t) :
  cuenta e (ps ++ [p])
  = cuenta e ps + (if string_dec (Pedido.estado p) e then 1 else 0).
Proof.
  unfold cuenta. rewrite List.map_app, List.count_occ_app. simpl.
  destruct (string_dec (Pedido.estado p) e); lia.
Qed.

Lemma completados_app_otro (ps : list Pedido.t) (p : Pedido.t) :
  Pedido.estado p <> "completado"%string ->
  completados (ps ++ [p]) = completados ps.
Proof.
  intros H. rewrite (completados_sin ps [] p H). rewrite List.app_nil_r.
  reflexivity.
Qed.

Lemma completados_app_completado (ps : list Pedido.t) (p : Pedido.t) :
  Pedido.estado p = "completado"%string ->
  completados (ps ++ [p]) = completados ps ++ [p].
Proof.
  intros H. unfold completados. rewrite List.filter_app. simpl.
  unfold con_estado at 2. rewrite H. reflexivity.
Qed.

Lemma sum_from_app (xs ys : list float) : forall n,
  sum_from n (xs ++ ys)
  = match sum_from n xs with
    | Return n' => sum_from n' ys
    | Raise e => Raise e
    end.
Proof.
  induction xs as [|x xs IH]; intros n; simpl; [reflexivity|].
  destruct (number_add_float n x); [apply IH | reflexivity].
Qed.

Lemma estadisticas_de (db : DB) (s : Estadisticas) :
  obtener_estadisticas db = (db, Return s) ->
  total_clientes s = Z.of_nat (List.length (clientes db))
  /\ total_productos s = Z.of_nat (List.length (productos db))
  /\ total_pedidos s = Z.of_nat (List.length (pedidos db))
  /\ pedidos_pendientes s = cuenta "pendiente" (pedidos db)
  /\ pedidos_en_proceso s = cuenta "en_proceso" (pedidos db)
  /\ pedidos_completados s = cuenta "completado" (pedidos db)
  /\ Py.sum (List.map Pedido.total
               (List.firstn 1000 (completados (pedidos db))))
     = Return (ingresos_totales s).
Proof.
  destruct (obtener_estadisticas_eq db) as (n & Hn & Hs). rewrite Hs.
  intros [= <-]. simpl. repeat (split; [reflexivity|]). exact Hn.
Qed.

(** X8. A successful [crear_pedido] shows in the statistics as one more
    order and one more pending order, and as nothing else: the counts of
    orders in process and completed, the revenue and the numbers of
    customers and products are the ones reported before. *)
Theorem crear_pedido_en_estadisticas
    (strptime_Ymd : string -> option datetime) (uuid4 : string)
    (utcnow : datetime) (pedido : PedidoCreate.t) (db db1 : DB)
    (p : Pedido.t) (s : Estadisticas)
    (Hok : crear_pedido strptime_Ymd uuid4 utcnow pedido db = (db1, Return p))
    (Hs : obtener_estadisticas db = (db, Return s)) :
  exists s1,
    obtener_estadisticas db1 = (db1, Return s1)
    /\ total_pedidos s1 = total_pedidos s + 1
    /\ pedidos_pendientes s1 = pedidos_pendientes s + 1
    /\ pedidos_en_proceso s1 = pedidos_en_proceso s
    /\ pedidos_completados s1 = pedidos_completados s
    /\ ingresos_totales s1 = ingresos_totales s
    /\ total_clientes s1 = total_clientes s
    /\ total_productos s1 = total_productos s.
Proof.
  destruct (crear_pedido_return _ _ _ _ _ _ _ Hok)
    as (cliente & fecha & ds & _ & _ & _ & Hp & Hdb).
  destruct (estadisticas_de _ _ Hs) as (Hc & Hpr & Ht & Hpe & Hen & Hco & Hi).
  destruct (obtener_estadisticas_eq db1) as (n1 & Hn1 & Hs1).
  eexists. split; [exact Hs1|]. simpl.
  assert (Hped : pedidos db1 = pedidos db ++ [p]) by (rewrite Hdb; reflexivity).
  assert (He : Pedido.estado p = "pendiente"%string) by (rewrite Hp; reflexivity).
  rewrite Hped in *. rewrite !cuenta_app, He, List.length_app. simpl.
  rewrite Ht, Hpe, Hen, Hco, Hc, Hpr.
  assert (Hcl : clientes db1 = clientes db) by (rewrite Hdb; reflexivity).
  assert (Hpd : productos db1 = productos db) by (rewrite Hdb; reflexivity).
  rewrite Hcl, Hpd.
  repeat split; try lia.
  rewrite completados_app_otro in Hn1 by (rewrite He; discriminate).
  congruence.
Qed.

Lemma crear_pedido_en_estadisticas_witness :
  exists s1,
    obtener_estadisticas (Caso.db_con Caso.pedido_ana)
    = (Caso.db_con Caso.pedido_ana, Return s1)
    /\ total_pedidos s1 = 0 + 1
    /\ pedidos_pendientes s1 = 0 + 1
    /\ pedidos_en_proceso s1 = 0
    /\ pedidos_completados s1 = 0
    /\ ingresos_totales s1 = PyInt 0
    /\ total_clientes s1 = 1
    /\ total_productos s1 = 2.
Proof.
  exact (crear_pedido_en_estadisticas Strptime.Ymd "o-1" Ejemplo.t0
           Caso.solicitud_ana Ejemplo.db0 (Caso.db_con Caso.pedido_ana)
           Caso.pedido_ana
           {| total_clientes := 1; total_productos := 2; total_pedidos := 0;
              pedidos_pendientes := 0; pedidos_en_proceso := 0;
              pedidos_completados := 0; ingresos_totales := PyInt 0 |}
           eq_refl eq_refl).
Defined.

(** X9. Let [crear_pedido] return an order under an identifier that no
    stored order had, and let [actualizar_estado_pedido] then set that
    order to "completado".  The update returns its acknowledgement, and the
    statistics show one more order and one more completed order than
    before the composition.  When fewer than 1000 orders were completed,
    the revenue is the revenue reported before plus the total of the new
    order; when 1000 or more were, the revenue is the one reported before. *)
Theorem completar_pedido_nuevo
    (strptime_Ymd : string -> option datetime) (uuid4 : string)
    (utcnow : datetime) (pedido : PedidoCreate.t) (db db1 : DB)
    (p : Pedido.t) (s : Estadisticas)
    (Hok : crear_pedido strptime_Ymd uuid4 utcnow pedido db = (db1, Return p))
    (Hnuevo : Collection.find_one Pedido.id uuid4 (pedidos db) = None)
    (Hs : obtener_estadisticas db = (db, Return s)) :
  exists db2 s2,
    actualizar_estado_pedido uuid4 "completado" db1
    = (db2, Return "Estado actualizado exitosamente"%string)
    /\ obtener_estadisticas db2 = (db2, Return s2)
    /\ total_pedidos s2 = total_pedidos s + 1
    /\ pedidos_completados s2 = pedidos_completados s + 1
    /\ pedidos_pendientes s2 = pedidos_pendientes s
    /\ pedidos_en_proceso s2 = pedidos_en_proceso s
    /\ ((List.length (completados (pedidos db)) < 1000)%nat ->
        exists x,
          pydantic_float (ingresos_totales s) = Return x
          /\ ingresos_totales s2 = PyFloat (PrimFloat.add x (Pedido.total p)))
    /\ ((1000 <= List.length (completados (pedidos db)))%nat ->
        ingresos_totales s2 = ingresos_totales s).
Proof.
  destruct (crear_pedido_return _ _ _ _ _ _ _ Hok)
    as (cliente & fecha & ds & _ & _ & _ & Hp & Hdb).
  destruct (estadisticas_de _ _ Hs) as (_ & _ & Ht & Hpe & Hen & Hco & Hi).
  assert (Hid : Pedido.id p = uuid4) by (rewrite Hp; reflexivity).
  assert (Hped : pedidos db1 = pedidos db ++ [p]) by (rewrite Hdb; reflexivity).
  rewrite actualizar_estado_pedido_eq, Hped.
  rewrite (find_one_middle Pedido.id uuid4 (pedidos db) [] p Hid Hnuevo).
  change (str_in "completado" estados_validos) with true. cbv iota.
  rewrite (update_one_middle Pedido.id uuid4 (Pedido.set_estado "completado")
             (pedidos db) [] p Hid Hnuevo).
  match goal with
  | |- exists db2 s2, (?d, _) = _ /\ _ =>
      destruct (obtener_estadisticas_eq d) as (n2 & Hn2 & Hs2); exists d
  end.
  eexists. split; [reflexivity|].
  split; [exact Hs2|].
  cbn [pedidos total_pedidos pedidos_completados pedidos_pendientes
       pedidos_en_proceso ingresos_totales] in Hn2 |- *.
  rewrite !cuenta_app, List.length_app.
  cbn [Pedido.estado Pedido.set_estado List.length].
  rewrite Ht, Hpe, Hen, Hco.
  repeat (split;
          [first [ lia
                 | destruct (string_dec _ _) as [E|E];
                   try discriminate E;
                   try (exfalso; apply E; reflexivity); lia ] |]).
  rewrite completados_app_completado in Hn2 by reflexivity.
  split.
  - intros Hlt.
    rewrite List.firstn_all2 in Hn2 by (rewrite List.length_app; simpl; lia).
    rewrite List.firstn_all2 in Hi by lia.
    rewrite List.map_app in Hn2. unfold Py.sum in Hn2, Hi.
    rewrite sum_from_app, Hi in Hn2.
    destruct (sum_from_ok (List.map Pedido.total (completados (pedidos db)))
                (PyInt 0) 0%float float_of_int_0) as (n & Hn & Hx).
    rewrite Hi in Hn. injection Hn as <-.
    eexists. split; [exact Hx|].
    cbn [List.map sum_from] in Hn2.
    rewrite (number_add_float_ok _ _ _ Hx) in Hn2.
    change (Pedido.total (Pedido.set_estado "completado" p))
      with (Pedido.total p) in Hn2.
    congruence.
  - intros Hge.
    rewrite List.firstn_app in Hn2.
    replace (1000 - List.length (completados (pedidos db)))%nat with 0%nat
      in Hn2 by lia.
    rewrite List.firstn_O, List.app_nil_r in Hn2. congruence.
Qed.

Lemma completar_pedido_nuevo_witness :
  exists db2 s2,
    actualizar_estado_pedido "o-1" "completado" (Caso.db_con Caso.pedido_ana)
    = (db2, Return "Estado actualizado exitosamente"%string)
    /\ obtener_estadisticas db2 = (db2, Return s2)
    /\ pedidos_completados s2 = 1
    /\ ingresos_totales s2 = PyFloat 11.5.
Proof.
  destruct (completar_pedido_nuevo Strptime.Ymd "o-1" Ejemplo.t0
              Caso.solicitud_ana Ejemplo.db0 (Caso.db_con Caso.pedido_ana)
              Caso.pedido_ana
              {| total_clientes := 1; total_productos := 2; total_pedidos := 0;
                 pedidos_pendientes := 0; pedidos_en_proceso := 0;
                 pedidos_completados := 0; ingresos_totales := PyInt 0 |}
              eq_refl eq_refl eq_refl)
    as (db2 & s2 & Ha & Hs2 & _ & Hc & _ & _ & Hlt & _).
  exists db2, s2. split; [exact Ha|]. split; [exact Hs2|].
  split; [exact Hc|].
  destruct Hlt as (x & Hx & ->); [simpl; lia|].
  injection Hx as <-. reflexivity.
Defined.

(** ** Listings *)

Lemma firstn_snoc_corto {A : Type} (n : nat) (xs : list A) (x : A) :
  (List.length xs < n)%nat -> List.firstn n (xs ++ [x]) = xs ++ [x].
Proof.
  intros H. apply List.firstn_all2. rewrite List.length_app. simpl. lia.
Qed.

Lemma firstn_snoc_largo {A : Type} (n : nat) (xs : list A) (x : A) :
  (n <= List.length xs)%nat -> List.firstn n (xs ++ [x]) = List.firstn n xs.
Proof.
  intros H. rewrite List.firstn_app.
  replace (n - List.length xs)%nat with 0%nat by lia.
  rewrite List.firstn_O, List.app_nil_r. reflexivity.
Qed.

(** X10. [obtener_clientes] and [obtener_productos] list at most 1000
    documents, the first ones in collection order.  A customer created
    while fewer than 1000 are stored is listed last; a customer created
    while 1000 or more are stored is stored but not listed: the listing is
    the one returned before.  The same holds for products. *)
Theorem listados_hasta_mil
    (uuid4 : string) (utcnow : datetime) (cliente : ClienteCreate.t)
    (producto : ProductoCreate.t) (db : DB) :
  (exists db' nuevo,
     crear_cliente uuid4 utcnow cliente db = (db', Return nuevo)
     /\ clientes db' = clientes db ++ [nuevo]
     /\ ((List.length (clientes db) < 1000)%nat ->
         obtener_clientes db' = (db', Return (clientes db ++ [nuevo])))
     /\ ((1000 <= List.length (clientes db))%nat ->
         obtener_clientes db'
         = (db', Return (List.firstn 1000 (clientes db)))
         /\ snd (obtener_clientes db') = snd (obtener_clientes db)))
  /\ (exists db' nuevo,
        crear_producto uuid4 producto db = (db', Return nuevo)
        /\ productos db' = productos db ++ [nuevo]
        /\ ((List.length (productos db) < 1000)%nat ->
            obtener_productos db' = (db', Return (productos db ++ [nuevo])))
        /\ ((1000 <= List.length (productos db))%nat ->
            obtener_productos db'
            = (db', Return (List.firstn 1000 (productos db)))
            /\ snd (obtener_productos db') = snd (obtener_productos db))).
Proof.
  split.
  - eexists. eexists. split; [reflexivity|].
    unfold obtener_clientes, Collection.find_to_list, Collection.insert_one.
    cbn [clientes snd]. rewrite !filter_todos.
    split; [reflexivity|]. split.
    + intros H. rewrite (firstn_snoc_corto _ _ _ H). reflexivity.
    + intros H. rewrite (firstn_snoc_largo _ _ _ H). split; reflexivity.
  - eexists. eexists. split; [reflexivity|].
    unfold obtener_productos, Collection.find_to_list, Collection.insert_one.
    cbn [productos snd]. rewrite !filter_todos.
    split; [reflexivity|]. split.
    + intros H. rewrite (firstn_snoc_corto _ _ _ H). reflexivity.
    + intros H. rewrite (firstn_snoc_largo _ _ _ H). split; reflexivity.
Qed.

Lemma listados_hasta_mil_witness :
  ((List.length (clientes Ejemplo.db0) < 1000)%nat
   /\ (1000 <= List.length (clientes Escena.db_mil_clientes))%nat)
  /\ snd (obtener_clientes
            (fst (crear_cliente "c-luz" Caso.entrega Caso.ana_nueva
                    Ejemplo.db0)))
     = Return [Ejemplo.ana;
               {| Cliente.id := "c-luz"; Cliente.nombre := "Ana Maria";
                  Cliente.telefono := "600999888";
                  Cliente.email := Some "ana@example.org"%string;
                  Cliente.direccion := None;
                  Cliente.fecha_registro := Caso.entrega |}]
  /\ snd (obtener_clientes
            (fst (crear_cliente "c-luz" Caso.entrega Caso.ana_nueva
                    Escena.db_mil_clientes)))
     = snd (obtener_clientes Escena.db_mil_clientes).
Proof.
  assert (H0 : (List.length (clientes Ejemplo.db0) < 1000)%nat)
    by (simpl; lia).
  assert (H1 : (1000 <= List.length (clientes Escena.db_mil_clientes))%nat)
    by (unfold Escena.db_mil_clientes; cbn [clientes];
        rewrite List.repeat_length; lia).
  split; [split; assumption|]. split.
  - destruct (proj1 (listados_hasta_mil "c-luz" Caso.entrega Caso.ana_nueva
                       Caso.pan_caro Ejemplo.db0))
      as (db' & nuevo & Hc & _ & Hcorto & _).
    rewrite Hc. cbn [fst]. rewrite (Hcorto H0).
    injection Hc as _ <-. reflexivity.
  - destruct (proj1 (listados_hasta_mil "c-luz" Caso.entrega Caso.ana_nueva
                       Caso.pan_caro Escena.db_mil_clientes))
      as (db' & nuevo & Hc & _ & _ & Hlargo).
    rewrite Hc. cbn [fst]. exact (proj2 (Hlargo H1)).
Defined.

Lemma StronglySorted_app_inv {A : Type} (R : A -> A -> Prop) (l1 l2 : list A) :
  StronglySorted R (l1 ++ l2) ->
  StronglySorted R l1
  /\ forall a b, In a l1 -> In b l2 -> R a b.
Proof.
  induction l1 as [|x l1 IH]; simpl; intros H.
  - split; [constructor | intros a b []].
  - apply StronglySorted_inv in H. destruct H as (Hs & Hx).
    destruct (IH Hs) as (Hs1 & Hcross).
    apply Forall_app in Hx. destruct Hx as (Hx1 & Hx2).
    split; [constructor; assumption|].
    intros a b [<-|Ha] Hb.
    + exact (proj1 (Forall_forall _ _) Hx2 b Hb).
    + exact (Hcross a b Ha Hb).
Qed.

(** X11. Let the store's sort return the orders of the collection, each
    once, none placed earlier than one that follows it.  Then
    [obtener_pedidos] leaves the store as it was and returns at most 1000
    orders, all of them stored orders, newest first; an order that is
    stored but not listed was placed no later than any listed order; and
    when at most 1000 orders are stored, all of them are listed. *)
Theorem obtener_pedidos_mas_recientes
    (sort_fecha_pedido : list Pedido.t -> list Pedido.t) (db : DB)
    (Hperm : Permutation (sort_fecha_pedido (pedidos db)) (pedidos db))
    (Hsorted : StronglySorted no_anterior (sort_fecha_pedido (pedidos db))) :
  exists lista,
    obtener_pedidos sort_fecha_pedido db = (db, Return lista)
    /\ List.length lista = Nat.min 1000 (List.length (pedidos db))
    /\ (forall p, In p lista -> In p (pedidos db))
    /\ StronglySorted no_anterior lista
    /\ (forall a b, In a lista -> In b (pedidos db) -> ~ In b lista ->
                    no_anterior a b)
    /\ ((List.length (pedidos db) <= 1000)%nat ->
        Permutation lista (pedidos db)).
Proof.
  unfold obtener_pedidos. rewrite filter_todos.
  eexists. split; [reflexivity|].
  pose proof (List.firstn_skipn 1000 (sort_fecha_pedido (pedidos db))) as Hcut.
  rewrite <- Hcut in Hsorted.
  destruct (StronglySorted_app_inv _ _ _ Hsorted) as (Hs1 & Hcross).
  split; [|split; [|split; [|split]]].
  - rewrite List.length_firstn, (Permutation_length Hperm). reflexivity.
  - intros p Hp. apply (Permutation_in _ Hperm).
    rewrite <- Hcut. apply in_or_app. left. exact Hp.
  - exact Hs1.
  - intros a b Ha Hb Hnb. apply (Hcross a b Ha).
    apply (Permutation_in _ (Permutation_sym Hperm)) in Hb.
    rewrite <- Hcut in Hb. apply in_app_or in Hb.
    destruct Hb as [Hb|Hb]; [contradiction | exact Hb].
  - intros Hle. rewrite List.firstn_all2; [exact Hperm|].
    rewrite (Permutation_length Hperm). exact Hle.
Qed.

Lemma obtener_pedidos_mas_recientes_witness :
  (Permutation (List.rev (pedidos Escena.db_tres_dias))
               (pedidos Escena.db_tres_dias)
   /\ StronglySorted no_anterior (List.rev (pedidos Escena.db_tres_dias)))
  /\ exists lista,
       obtener_pedidos (@List.rev Pedido.t) Escena.db_tres_dias
       = (Escena.db_tres_dias, Return lista)
       /\ List.map Pedido.id lista = ["d3"; "d2"; "d1"]%string.
Proof.
  assert (Hperm : Permutation (List.rev (pedidos Escena.db_tres_dias))
                              (pedidos Escena.db_tres_dias))
    by (apply Permutation_sym, Permutation_rev).
  assert (Hsorted : StronglySorted no_anterior
                      (List.rev (pedidos Escena.db_tres_dias)))
    by (simpl; repeat constructor).
  split; [split; assumption|].
  destruct (obtener_pedidos_mas_recientes (@List.rev Pedido.t)
              Escena.db_tres_dias Hperm Hsorted) as (lista & Ho & _).
  exists lista. split; [exact Ho|].
  vm_compute in Ho. injection Ho as <-. reflexivity.
Defined.

(** ** The transition function in closed form *)

Lemma update_one_absent {A : Type} (key : A -> string) (k : string)
    (set : A -> A) (docs : list A) :
  Collection.find_one key k docs = None ->
  Collection.update_one key k set docs = docs.
Proof.
  unfold Collection.find_one.
  induction docs as [|d docs IH]; simpl; [reflexivity|].
  destruct (String.eqb (key d) k); [discriminate|].
  intros H. rewrite (IH H). reflexivity.
Qed.

Lemma responder_eq {A : Type} (f : A -> respuesta) (m : M A) (db : DB) :
  responder f m db
  = (fst (m db), match snd (m db) with
                 | Return a => Return (f a)
                 | Raise e => Raise e
                 end).
Proof. unfold responder. destruct (m db) as [db' [a|e]]; reflexivity. Qed.

Lemma obtener_estadisticas_fst (db : DB) : fst (obtener_estadisticas db) = db.
Proof.
  destruct (obtener_estadisticas_eq db) as (n & _ & ->). reflexivity.
Qed.

Ltac abrir :=
  cbn [ejecutar]; rewrite responder_eq; cbn [fst];
  rewrite ?obtener_cliente_eq, ?obtener_producto_eq, ?obtener_pedido_eq,
    ?eliminar_cliente_eq, ?eliminar_producto_eq, ?eliminar_pedido_eq,
    ?actualizar_cliente_eq, ?actualizar_producto_eq,
    ?actualizar_estado_pedido_eq, ?crear_pedido_eq,
    ?obtener_estadisticas_fst.

Ltac partir :=
  repeat match goal with
         | |- context [match ?x with Some _ => _ | None => _ end] =>
             destruct x eqn:?
         | |- context [match ?x with Return _ => _ | Raise _ => _ end] =>
             destruct x eqn:?
         | |- context [if ?x then _ else _] => destruct x eqn:?
         end.

Section ApiFacts.
Variable strptime_Ymd : string -> option datetime.
Variable sort_fecha_pedido : list Pedido.t -> list Pedido.t.

Lemma ejecutar_clientes (c : llamada) (db : DB) :
  clientes (fst (ejecutar strptime_Ymd sort_fecha_pedido c db))
  = match c with
    | Crear_cliente uuid4 utcnow cliente =>
        clientes db
        ++ [{| Cliente.id := uuid4;
               Cliente.nombre := ClienteCreate.nombre cliente;
               Cliente.telefono := ClienteCreate.telefono cliente;
               Cliente.email := ClienteCreate.email cliente;
               Cliente.direccion := ClienteCreate.direccion cliente;
               Cliente.fecha_registro := utcnow |}]
    | Actualizar_cliente cliente_id cliente =>
        Collection.update_one Cliente.id cliente_id (set_cliente cliente)
          (clientes db)
    | Eliminar_cliente cliente_id => delete_one Cliente.id cliente_id (clientes db)
    | _ => clientes db
    end.
Proof.
  destruct c; abrir; cbv zeta; partir; cbn [fst clientes]; try reflexivity.
  symmetry. apply update_one_absent. assumption.
Qed.

Lemma ejecutar_productos (c : llamada) (db : DB) :
  productos (fst (ejecutar strptime_Ymd sort_fecha_pedido c db))
  = match c with
    | Crear_producto uuid4 producto =>
        productos db
        ++ [{| Producto.id := uuid4;
               Producto.nombre := ProductoCreate.nombre producto;
               Producto.precio := ProductoCreate.precio producto;
               Producto.categoria := ProductoCreate.categoria producto;
               Producto.descripcion := ProductoCreate.descripcion producto;
               Producto.disponible := ProductoCreate.disponible producto |}]
    | Actualizar_producto producto_id producto =>
        Collection.update_one Producto.id producto_id (set_producto producto)
          (productos db)
    | Eliminar_producto producto_id =>
        delete_one Producto.id producto_id (productos db)
    | _ => productos db
    end.
Proof.
  destruct c; abrir; cbv zeta; partir; cbn [fst productos]; try reflexivity.
  symmetry. apply update_one_absent. assumption.
Qed.

Lemma ejecutar_pedidos (c : llamada) (db : DB) :
  pedidos (fst (ejecutar strptime_Ymd sort_fecha_pedido c db))
  = match c with
    | Crear_pedido uuid4 utcnow pedido =>
        match snd (crear_pedido strptime_Ymd uuid4 utcnow pedido db) with
        | Return p => pedidos db ++ [p]
        | Raise _ => pedidos db
        end
    | Actualizar_estado_pedido pedido_id estado =>
        if str_in estado estados_validos
        then Collection.update_one Pedido.id pedido_id
               (Pedido.set_estado estado) (pedidos db)
        else pedidos db
    | Eliminar_pedido pedido_id => delete_one Pedido.id pedido_id (pedidos db)
    | _ => pedidos db
    end.
Proof.
  destruct c;
    try (abrir; cbv zeta; partir; cbn [fst pedidos]; try reflexivity;
         symmetry; apply update_one_absent; assumption).
  cbn [ejecutar]. rewrite responder_eq. cbn [fst].
  destruct (crear_pedido strptime_Ymd uuid4 utcnow pedido db)
    as [db' [p|e]] eqn:E; cbn [fst snd].
  - destruct (crear_pedido_return _ _ _ _ _ _ _ E)
      as (cl & f & ds & _ & _ & _ & _ & ->). reflexivity.
  - rewrite (crear_pedido_raise _ _ _ _ _ _ _ E). reflexivity.
Qed.

End ApiFacts.

(** ** Identifiers *)

Lemma map_campo_update_one {A B : Type} (key : A -> string) (campo : A -> B)
    (k : string) (set : A -> A) (docs : list A) :
  (forall d, campo (set d) = campo d) ->
  List.map campo (Collection.update_one key k set docs) = List.map campo docs.
Proof.
  intros Hset. induction docs as [|d docs IH]; simpl; [reflexivity|].
  destruct (String.eqb (key d) k); simpl.
  - rewrite Hset. reflexivity.
  - rewrite IH. reflexivity.
Qed.

Lemma actualizar_cliente_clientes (k : string) (c : ClienteCreate.t) (db : DB) :
  clientes (fst (actualizar_cliente k c db))
  = Collection.update_one Cliente.id k (set_cliente c) (clientes db).
Proof.
  pose proof (ejecutar_clientes (fun _ => None) (fun l => l)
                (Actualizar_cliente k c) db) as H.
  cbn [ejecutar] in H. rewrite responder_eq in H. exact H.
Qed.

Lemma actualizar_producto_productos (k : string) (p : ProductoCreate.t)
    (db : DB) :
  productos (fst (actualizar_producto k p db))
  = Collection.update_one Producto.id k (set_producto p) (productos db).
Proof.
  pose proof (ejecutar_productos (fun _ => None) (fun l => l)
                (Actualizar_producto k p) db) as H.
  cbn [ejecutar] in H. rewrite responder_eq in H. exact H.
Qed.

Lemma actualizar_estado_pedido_pedidos (k e : string) (db : DB) :
  pedidos (fst (actualizar_estado_pedido k e db))
  = if str_in e estados_validos
    then Collection.update_one Pedido.id k (Pedido.set_estado e) (pedidos db)
    else pedidos db.
Proof.
  pose proof (ejecutar_pedidos (fun _ => None) (fun l => l)
                (Actualizar_estado_pedido k e) db) as H.
  cbn [ejecutar] in H. rewrite responder_eq in H. exact H.
Qed.

(** X12. The three update endpoints, whatever they are called with and
    whether they return or raise, leave in every collection the same
    identifiers in the same positions.  [actualizar_cliente] also leaves
    every registration timestamp as it was, and
    [actualizar_estado_pedido] leaves the customer, the lines, the total
    and the dates of every order as they were. *)
Theorem actualizaciones_conservan_ids (db : DB) :
  (forall k c,
     List.map Cliente.id (clientes (fst (actualizar_cliente k c db)))
     = List.map Cliente.id (clientes db)
     /\ List.map Cliente.fecha_registro
          (clientes (fst (actualizar_cliente k c db)))
        = List.map Cliente.fecha_registro (clientes db))
  /\ (forall k p,
        List.map Producto.id (productos (fst (actualizar_producto k p db)))
        = List.map Producto.id (productos db))
  /\ (forall k e,
        let despues := pedidos (fst (actualizar_estado_pedido k e db)) in
        List.map Pedido.id despues = List.map Pedido.id (pedidos db)
        /\ List.map Pedido.cliente_id despues
           = List.map Pedido.cliente_id (pedidos db)
        /\ List.map Pedido.nombre_cliente despues
           = List.map Pedido.nombre_cliente (pedidos db)
        /\ List.map Pedido.productos despues
           = List.map Pedido.productos (pedidos db)
        /\ List.map Pedido.total despues = List.map Pedido.total (pedidos db)
        /\ List.map Pedido.fecha_pedido despues
           = List.map Pedido.fecha_pedido (pedidos db)
        /\ List.map Pedido.fecha_entrega_estimada despues
           = List.map Pedido.fecha_entrega_estimada (pedidos db)).
Proof.
  split; [|split].
  - intros k c. rewrite actualizar_cliente_clientes.
    split; apply map_campo_update_one; reflexivity.
  - intros k p. rewrite actualizar_producto_productos.
    apply map_campo_update_one; reflexivity.
  - intros k e. cbv zeta. rewrite actualizar_estado_pedido_pedidos.
    destruct (str_in e estados_validos);
      repeat split; try reflexivity; apply map_campo_update_one; reflexivity.
Qed.

Lemma NoDup_snoc {A : Type} (xs : list A) (x : A) :
  NoDup xs -> ~ In x xs -> NoDup (xs ++ [x]).
Proof.
  intros Hnd Hx. apply NoDup_app.
  - exact Hnd.
  - constructor; [intros [] | constructor].
  - intros a Ha [<-|[]]. exact (Hx Ha).
Qed.

Lemma ejecutar_ids_unicos
    (strptime_Ymd : string -> option datetime)
    (sort_fecha_pedido : list Pedido.t -> list Pedido.t)
    (c : llamada) (db : DB) :
  ids_unicos db -> fresca c db ->
  ids_unicos (fst (ejecutar strptime_Ymd sort_fecha_pedido c db)).
Proof.
  unfold ids_unicos. intros (Hc & Hp & Ho) Hf.
  rewrite ejecutar_clientes, ejecutar_productos, ejecutar_pedidos.
  destruct c; cbn [fresca] in Hf; repeat split; try assumption.
  - rewrite List.map_app. apply NoDup_snoc; assumption.
  - rewrite map_campo_update_one by reflexivity. assumption.
  - apply NoDup_delete_one. assumption.
  - rewrite List.map_app. apply NoDup_snoc; assumption.
  - rewrite map_campo_update_one by reflexivity. assumption.
  - apply NoDup_delete_one. assumption.
  - destruct (crear_pedido strptime_Ymd uuid4 utcnow pedido db)
      as [db' [p|e]] eqn:E; cbn [snd]; [|assumption].
    destruct (crear_pedido_return _ _ _ _ _ _ _ E)
      as (cl & f & ds & _ & _ & _ & -> & _).
    rewrite List.map_app. apply NoDup_snoc; assumption.
  - destruct (str_in estado estados_validos); [|assumption].
    rewrite map_campo_update_one by reflexivity. assumption.
  - apply NoDup_delete_one. assumption.
Qed.

(** X13. Identifiers stay unique.  From a store in which no two customers,
    no two products and no two orders bear the same id, any sequence of
    requests in which every creation brings an identifier not in use leads
    to a store with the same property. *)
Theorem ids_unicos_invariante
    (strptime_Ymd : string -> option datetime)
    (sort_fecha_pedido : list Pedido.t -> list Pedido.t)
    (cs : list llamada) (db : DB)
    (Hdb : ids_unicos db)
    (Hcs : frescas strptime_Ymd sort_fecha_pedido cs db) :
  ids_unicos (ejecutar_todas strptime_Ymd sort_fecha_pedido cs db).
Proof.
  unfold ejecutar_todas. revert db Hdb Hcs.
  induction cs as [|c cs IH]; intros db Hdb Hcs; simpl; [exact Hdb|].
  destruct Hcs as (Hc & Hrest).
  apply IH; [|exact Hrest].
  apply ejecutar_ids_unicos; assumption.
Qed.

Lemma ids_unicos_invariante_witness :
  ids_unicos db_vacia
  /\ ids_unicos
       (ejecutar_todas Strptime.Ymd (@List.rev Pedido.t)
          [Crear_cliente "c-ana" Ejemplo.t0 Caso.ana_nueva;
           Crear_producto "p-pan" Caso.pan_caro;
           Crear_pedido "o-1" Ejemplo.t0 Caso.solicitud_vacia;
           Crear_pedido "o-2" Ejemplo.t0 Caso.solicitud_vacia;
           Actualizar_estado_pedido "o-1" "completado";
           Eliminar_producto "p-pan"]
          db_vacia).
Proof.
  assert (H0 : ids_unicos db_vacia) by (repeat split; constructor).
  split; [exact H0|].
  apply ids_unicos_invariante; [exact H0|].
  cbn -[Strptime.Ymd]. vm_compute.
  repeat split; try exact I;
    intros H; repeat (destruct H as [H|H]; [discriminate H|]); exact H.
Defined.

(** ** Failures *)

Lemma float_of_int_raise (z : Z) (e : exn) :
  float_of_int z = Raise e -> e = OverflowError.
Proof.
  unfold float_of_int.
  destruct (binary_normalize 53 1024 z 0 false); intros H;
    try discriminate H; injection H as <-; reflexivity.
Qed.

Lemma lineas_de_raise (catalogo : list Producto.t) (items : list Item.t)
    (e : exn) :
  lineas_de catalogo items = Raise e ->
  e = OverflowError \/ exists detail, e = HTTPException 404 detail.
Proof.
  induction items as [|item rest IH]; simpl; [discriminate|].
  destruct (Collection.find_one Producto.id (Item.producto_id item) catalogo).
  - unfold float_mul_int.
    destruct (float_of_int (Item.cantidad item)) as [g|e'] eqn:Hg.
    + destruct (lineas_de catalogo rest); [discriminate|].
      intros [= <-]. apply IH. reflexivity.
    + intros [= <-]. left. exact (float_of_int_raise _ _ Hg).
  - intros [= <-]. right. eexists. reflexivity.
Qed.

(** X14. A request that raises leaves the customers, the products and the
    orders exactly as they were.  What it raises is a 404, or a 400 when
    the request composes an order or updates a status, or [OverflowError]
    when it composes an order; [TypeError] is never raised: the document
    an update re-reads is always there. *)
Theorem ejecutar_raise
    (strptime_Ymd : string -> option datetime)
    (sort_fecha_pedido : list Pedido.t -> list Pedido.t)
    (c : llamada) (db db' : DB) (e : exn)
    (Hraise : ejecutar strptime_Ymd sort_fecha_pedido c db = (db', Raise e)) :
  clientes db' = clientes db
  /\ productos db' = productos db
  /\ pedidos db' = pedidos db
  /\ excepcion_de c e.
Proof.
  destruct c; cbn [ejecutar] in Hraise; rewrite responder_eq in Hraise;
    rewrite ?obtener_cliente_eq, ?obtener_producto_eq, ?obtener_pedido_eq,
      ?eliminar_cliente_eq, ?eliminar_producto_eq, ?eliminar_pedido_eq,
      ?actualizar_cliente_eq, ?actualizar_producto_eq,
      ?actualizar_estado_pedido_eq, ?crear_pedido_eq in Hraise;
    cbv zeta in Hraise.
  all: try (unfold crear_cliente, crear_producto, obtener_clientes,
             obtener_productos, obtener_pedidos, bind, ret,
             clientes_insert_one, productos_insert_one in Hraise;
            cbn [fst snd] in Hraise; discriminate Hraise).
  all: try (destruct (obtener_estadisticas_eq db) as (n & _ & Hs);
            rewrite Hs in Hraise; discriminate Hraise).
  all: repeat (cbn [fst snd] in Hraise;
       match type of Hraise with
       | context [match ?x with Some _ => _ | None => _ end] =>
           destruct x eqn:?
       | context [if ?x then _ else _] => destruct x eqn:?
       | context [match ?x with Return _ => _ | Raise _ => _ end] =>
           destruct x eqn:?
       end); cbn [fst snd] in Hraise; try discriminate Hraise.
  all: injection Hraise as <- <-.
  all: try match goal with
       | H : Collection.find_one _ ?k (_ {| clientes := _; productos := _;
                                            pedidos := _; writes := _ |})
             = None,
         H' : Collection.find_one _ ?k _ = Some _ |- _ =>
           exfalso; cbn [clientes productos pedidos] in H;
           rewrite find_one_update_one in H by reflexivity;
           rewrite H' in H; discriminate H
       end.
  all: repeat split; cbn [clientes productos pedidos]; try reflexivity;
    try (apply delete_one_absent; assumption);
    try (cbv; auto; fail).
  match goal with
  | H : lineas_de _ _ = Raise _ |- _ =>
      destruct (lineas_de_raise _ _ _ H) as [-> | (detail & ->)]
  end.
  - exact I.
  - left. reflexivity.
Qed.

Lemma ejecutar_raise_witness :
  ejecutar Strptime.Ymd (@List.rev Pedido.t)
    (Crear_pedido "o-5" Ejemplo.t0 Caso.solicitud_enorme) Ejemplo.db0
  = (Ejemplo.db0, Raise OverflowError)
  /\ ejecutar Strptime.Ymd (@List.rev Pedido.t)
       (Eliminar_cliente "c-nadie") Ejemplo.db0
     = ({| clientes := clientes Ejemplo.db0;
           productos := productos Ejemplo.db0;
           pedidos := pedidos Ejemplo.db0;
           writes := [(Clientes, Delete_one)] |},
        Raise (HTTPException 404 "Cliente no encontrado"))
  /\ excepcion_de (Eliminar_cliente "c-nadie")
       (HTTPException 404 "Cliente no encontrado").
Proof.
  split; [reflexivity|]. split; [reflexivity|].
  exact (proj2 (proj2 (proj2
           (ejecutar_raise Strptime.Ymd (@List.rev Pedido.t)
              (Eliminar_cliente "c-nadie") Ejemplo.db0 _ _ eq_refl)))).
Defined.

(** ** Frames *)

(** X15. A request touches its own collection only.  A customer request
    leaves the products and the orders as they were, a product request the
    customers and the orders, an order request the customers and the
    products; a listing, a read by id and the statistics leave the whole
    store as it was.  A request issues at most one write, and that write is
    on its own collection. *)
Theorem ejecutar_marco
    (strptime_Ymd : string -> option datetime)
    (sort_fecha_pedido : list Pedido.t -> list Pedido.t)
    (c : llamada) (db : DB) :
  match coleccion_de c with
  | Some Clientes =>
      productos (fst (ejecutar strptime_Ymd sort_fecha_pedido c db))
      = productos db
      /\ pedidos (fst (ejecutar strptime_Ymd sort_fecha_pedido c db))
         = pedidos db
  | Some Productos =>
      clientes (fst (ejecutar strptime_Ymd sort_fecha_pedido c db))
      = clientes db
      /\ pedidos (fst (ejecutar strptime_Ymd sort_fecha_pedido c db))
         = pedidos db
  | Some Pedidos =>
      clientes (fst (ejecutar strptime_Ymd sort_fecha_pedido c db))
      = clientes db
      /\ productos (fst (ejecutar strptime_Ymd sort_fecha_pedido c db))
         = productos db
  | None => fst (ejecutar strptime_Ymd sort_fecha_pedido c db) = db
  end
  /\ exists ops,
       writes (fst (ejecutar strptime_Ymd sort_fecha_pedido c db))
       = writes db ++ ops
       /\ (List.length ops <= 1)%nat
       /\ Forall (fun op => coleccion_de c = Some (fst op)) ops.
Proof.
  destruct c; cbn [coleccion_de]; abrir; cbv zeta;
    unfold crear_cliente, crear_producto, obtener_clientes,
      obtener_productos, obtener_pedidos, bind, ret,
      clientes_insert_one, productos_insert_one, log;
    partir; cbn [fst clientes productos pedidos writes con_pedido];
    (split; [try split; reflexivity|]);
    first [ exists []; split; [symmetry; apply List.app_nil_r|];
            split; [simpl; lia | constructor]
          | eexists; split; [reflexivity|];
            split; [simpl; lia | repeat constructor] ].
Qed.

(** ** Statuses *)

Lemma Forall_delete_one {A : Type} (key : A -> string) (k : string)
    (P : A -> Prop) (docs : list A) :
  Forall P docs -> Forall P (delete_one key k docs).
Proof.
  induction 1 as [|d docs Hd Hrest IH]; simpl; [constructor|].
  destruct (String.eqb (key d) k); [assumption | constructor; assumption].
Qed.

Lemma Forall_update_one {A : Type} (key : A -> string) (k : string)
    (set : A -> A) (P : A -> Prop) (docs : list A) :
  (forall d, P (set d)) ->
  Forall P docs -> Forall P (Collection.update_one key k set docs).
Proof.
  intros Hset. induction 1 as [|d docs Hd Hrest IH]; simpl; [constructor|].
  destruct (String.eqb (key d) k); constructor; auto.
Qed.

Lemma ejecutar_estados
    (strptime_Ymd : string -> option datetime)
    (sort_fecha_pedido : list Pedido.t -> list Pedido.t)
    (c : llamada) (db : DB) :
  estados_reconocidos db ->
  estados_reconocidos (fst (ejecutar strptime_Ymd sort_fecha_pedido c db)).
Proof.
  unfold estados_reconocidos. intros H. rewrite ejecutar_pedidos.
  destruct c; try assumption.
  - destruct (crear_pedido strptime_Ymd uuid4 utcnow pedido db)
      as [db' [p|e]] eqn:E; cbn [snd]; [|assumption].
    destruct (crear_pedido_return _ _ _ _ _ _ _ E)
      as (cl & f & ds & _ & _ & _ & -> & _).
    apply Forall_app. split; [assumption|].
    constructor; [|constructor]. simpl. auto.
  - destruct (str_in estado estados_validos) eqn:E; [|assumption].
    apply Forall_update_one; [|assumption].
    intros d. cbn [Pedido.estado Pedido.set_estado].
    exact (proj1 (str_in_In _ _) E).
  - apply Forall_delete_one. assumption.
Qed.

(** X16. Every stored order has one of the four statuses.  From a store
    with that property, any sequence of requests leads to a store with
    that property: a composed order is "pendiente" and a status update
    writes a status only after checking it. *)
Theorem estados_reconocidos_invariante
    (strptime_Ymd : string -> option datetime)
    (sort_fecha_pedido : list Pedido.t -> list Pedido.t)
    (cs : list llamada) (db : DB)
    (Hdb : estados_reconocidos db) :
  estados_reconocidos (ejecutar_todas strptime_Ymd sort_fecha_pedido cs db).
Proof.
  unfold ejecutar_todas. revert db Hdb.
  induction cs as [|c cs IH]; intros db Hdb; simpl; [exact Hdb|].
  apply IH. apply ejecutar_estados. exact Hdb.
Qed.

Lemma estados_reconocidos_invariante_witness :
  estados_reconocidos db_vacia
  /\ List.map Pedido.estado
       (pedidos
          (ejecutar_todas Strptime.Ymd (@List.rev Pedido.t)
             [Crear_cliente "c-ana" Ejemplo.t0 Caso.ana_nueva;
              Crear_pedido "o-1" Ejemplo.t0 Caso.solicitud_vacia;
              Crear_pedido "o-2" Ejemplo.t0 Caso.solicitud_vacia;
              Actualizar_estado_pedido "o-1" "entregado";
              Actualizar_estado_pedido "o-2" "cancelado"]
             db_vacia))
     = ["pendiente"; "cancelado"]%string
  /\ estados_reconocidos
       (ejecutar_todas Strptime.Ymd (@List.rev Pedido.t)
          [Crear_cliente "c-ana" Ejemplo.t0 Caso.ana_nueva;
           Crear_pedido "o-1" Ejemplo.t0 Caso.solicitud_vacia;
           Crear_pedido "o-2" Ejemplo.t0 Caso.solicitud_vacia;
           Actualizar_estado_pedido "o-1" "entregado";
           Actualizar_estado_pedido "o-2" "cancelado"]
          db_vacia).
Proof.
  assert (H0 : estados_reconocidos db_vacia) by constructor.
  split; [exact H0|]. split; [reflexivity|].
  apply estados_reconocidos_invariante. exact H0.
Defined.

Lemma cuenta_particion (ps : list Pedido.t) :
  Forall (fun p => In (Pedido.estado p) estados_validos) ps ->
  Z.of_nat (List.length ps)
  = cuenta "pendiente" ps + cuenta "en_proceso" ps
    + cuenta "completado" ps + cuenta "cancelado" ps.
Proof.
  unfold cuenta.
  induction 1 as [|p ps Hp _ IH]; [reflexivity|].
  cbn [List.length List.map List.count_occ].
  destruct Hp as [E|[E|[E|[E|[]]]]]; rewrite <- E;
    repeat match goal with
           | |- context [string_dec ?a ?b] =>
               destruct (string_dec a b); try congruence
           end; lia.
Qed.

(** X17. On a store in which every order has one of the four statuses, the
    statistics add up: the number of orders is the sum of the pending, the
    in-process and the completed ones and of the cancelled ones, which the
    report does not list. *)
Theorem estadisticas_particion (db : DB) (s : Estadisticas)
    (Hdb : estados_reconocidos db)
    (Hs : obtener_estadisticas db = (db, Return s)) :
  total_pedidos s
  = pedidos_pendientes s + pedidos_en_proceso s + pedidos_completados s
    + cuenta "cancelado" (pedidos db).
Proof.
  destruct (estadisticas_de _ _ Hs) as (_ & _ & Ht & Hpe & Hen & Hco & _).
  rewrite Ht, Hpe, Hen, Hco. apply cuenta_particion. exact Hdb.
Qed.

Lemma estadisticas_particion_witness :
  estados_reconocidos (Caso.db_cinco_o1 "cancelado")
  /\ 5 = 1 + 1 + 2 + cuenta "cancelado" (pedidos (Caso.db_cinco_o1 "cancelado")).
Proof.
  assert (H : estados_reconocidos (Caso.db_cinco_o1 "cancelado"))
    by (repeat constructor; simpl; auto 6).
  split; [exact H|].
  exact (estadisticas_particion (Caso.db_cinco_o1 "cancelado")
           {| total_clientes := 1; total_productos := 2; total_pedidos := 5;
              pedidos_pendientes := 1; pedidos_en_proceso := 1;
              pedidos_completados := 2; ingresos_totales := PyFloat 15 |}
           H eq_refl).
Defined.
